(** * Booking service of WorkSphere: a shallow embedding

    This file models [bookingService.ts] (the enhanced module) and the
    [Booking] type of [types.ts]:
    [validateBooking], [initializeStorage], [saveBooking], [getBookings],
    [isSlotAvailable], [getBookingsForRoomAndDate], [deleteBooking] and
    [clearAllBookings].

    Modelling choices:
    - JavaScript instants are milliseconds since the epoch, as [Z].  The
      local time zone is a fixed offset [tz] (local = UTC + tz, daylight
      saving is not modelled).
    - [localStorage] holds two keys.  The value under [BOOKINGS_KEY] is kept
      in parsed form: either a JSON array of elements, or [SCorrupt] for
      any stored text whose [JSON.parse] throws or whose value has no
      [filter] method (i.e. is not an array).  An array element is either
      an object with the fields of [Booking], the JSON value [null], or
      any other JSON value (number, string, boolean, array), on which every
      property read yields [undefined].
    - [JSON.stringify]/[JSON.parse] maps a [Booking] to itself; the only
      change the real round trip makes is that [createdAt], a [Date], comes
      back as its ISO string, which is modelled by keeping the timestamp.
    - [setItem] throws (quota exceeded, storage disabled) exactly when the
      environment flag [env_full] is set.
    - [Date.parse] follows ECMAScript for the date-only forms [YYYY],
      [YYYY-MM] and [YYYY-MM-DD] (read as UTC midnight); every other
      string goes to the engine-specific fallback [parse_fallback], a
      section variable.  [None] is the invalid date (NaN). *)

From Stdlib Require Import ZArith List String Ascii Bool Lia.
Import ListNotations.
Open Scope string_scope.
Open Scope Z_scope.

(** ** Data model ([types.ts]) *)

Record Booking := mkBooking {
  id : option string;
  roomId : Z;
  date : string;
  time : string;
  duration : option Z;
  bookedBy : option string;
  createdAt : option Z
}.

Record BookingValidationResult := mkResult {
  isValid : bool;
  errors : list string
}.


(** A JSON array element as [JSON.parse] returns it. *)
Inductive JElem :=
| JObj (b : Booking)
| JNull
| JOther.

(** The parsed value stored under [BOOKINGS_KEY]. *)
Inductive Stored :=
| SArray (l : list JElem)
| SCorrupt.

Record LocalStorage := mkLS {
  ls_version : option string;
  ls_bookings : option Stored
}.

Definition empty_storage : LocalStorage := mkLS None None.

(** What the host provides to one call: the clock ([Date.now()]), the
    time-zone offset, whether [setItem] throws, and the characters drawn
    by [Math.random().toString(36).substr(2, 9)]. *)
Record Env := mkEnv {
  env_now : Z;
  env_tz : Z;
  env_full : bool;
  env_rand : string
}.

Definition BOOKINGS_KEY := "roomBookings".
Definition STORAGE_VERSION := "1.0".
Definition VERSION_KEY := "roomBookingsVersion".

Definition err_room := "Room ID must be a positive number".
Definition err_date := "Date must be in YYYY-MM-DD format".
Definition err_time := "Time must be in HH:MM format".
Definition err_past := "Cannot book dates in the past".
Definition msg_failed_save := "Failed to save booking. Please try again.".
Definition msg_conflict := "Selected time slot is no longer available".
Definition msg_not_found := "Booking not found".
Definition msg_failed_delete := "Failed to delete booking".

(** Outcome of a promise: resolved with a value or rejected with a message. *)
Inductive Outcome (A : Type) :=
| Resolved (a : A)
| Rejected (msg : string).
Arguments Resolved {A} a.
Arguments Rejected {A} msg.

(** ** Strings, digits and regular expressions *)

Definition is_digit (c : ascii) : bool :=
  let n := nat_of_ascii c in (48 <=? n)%nat && (n <=? 57)%nat.

Definition digit_val (c : ascii) : Z := Z.of_nat (nat_of_ascii c) - 48.

(** [/^\d{4}-\d{2}-\d{2}$/.test(s)] *)
Definition re_date (s : string) : bool :=
  match s with
  | String y1 (String y2 (String y3 (String y4 (String d1
      (String m1 (String m2 (String d2 (String a1 (String a2 EmptyString))))))))) =>
      is_digit y1 && is_digit y2 && is_digit y3 && is_digit y4
      && Ascii.eqb d1 "-"%char && is_digit m1 && is_digit m2
      && Ascii.eqb d2 "-"%char && is_digit a1 && is_digit a2
  | _ => false
  end.

(** [/^\d{2}:\d{2}$/.test(s)] *)
Definition re_time (s : string) : bool :=
  match s with
  | String h1 (String h2 (String c (String m1 (String m2 EmptyString)))) =>
      is_digit h1 && is_digit h2 && Ascii.eqb c ":"%char
      && is_digit m1 && is_digit m2
  | _ => false
  end.

(** JavaScript truthiness of a string: [!s] holds iff [s] is empty. *)
Definition str_falsy (s : string) : bool :=
  match s with EmptyString => true | _ => false end.

Definition dec4 (a b c d : ascii) : Z :=
  digit_val a * 1000 + digit_val b * 100 + digit_val c * 10 + digit_val d.
Definition dec2 (a b : ascii) : Z := digit_val a * 10 + digit_val b.

(** ** Dates *)

Definition ms_per_day : Z := 86400000.

(** Day number (days since 1970-01-01) of a proleptic Gregorian date;
    a day past the end of the month runs into the next one, as [MakeDay]. *)
Definition days_from_civil (y m d : Z) : Z :=
  let y' := if m <=? 2 then y - 1 else y in
  let era := y' / 400 in
  let yoe := y' - era * 400 in
  let mp := (m + 9) mod 12 in
  let doy := (153 * mp + 2) / 5 + d - 1 in
  let doe := yoe * 365 + yoe / 4 - yoe / 100 + doy in
  era * 146097 + doe - 719468.

(** The ECMAScript date-only forms, read as UTC midnight. [Some None]: the
    string has the form but an illegal month or day (NaN); [None]: the
    string is not of a date-only form. *)
Definition make_date (y m d : Z) : option Z :=
  if (1 <=? m) && (m <=? 12) && (1 <=? d) && (d <=? 31)
  then Some (days_from_civil y m d * ms_per_day) else None.

Definition iso_date_only (s : string) : option (option Z) :=
  let mk := make_date in
  match s with
  | String y1 (String y2 (String y3 (String y4 EmptyString))) =>
      if is_digit y1 && is_digit y2 && is_digit y3 && is_digit y4
      then Some (mk (dec4 y1 y2 y3 y4) 1 1) else None
  | String y1 (String y2 (String y3 (String y4 (String d1
      (String m1 (String m2 EmptyString)))))) =>
      if is_digit y1 && is_digit y2 && is_digit y3 && is_digit y4
         && Ascii.eqb d1 "-"%char && is_digit m1 && is_digit m2
      then Some (mk (dec4 y1 y2 y3 y4) (dec2 m1 m2) 1) else None
  | String y1 (String y2 (String y3 (String y4 (String d1
      (String m1 (String m2 (String d2 (String a1 (String a2 EmptyString))))))))) =>
      if re_date s
      then Some (mk (dec4 y1 y2 y3 y4) (dec2 m1 m2) (dec2 a1 a2)) else None
  | _ => None
  end.

(** Local midnight of the current day, as [today.setHours(0, 0, 0, 0)]. *)
Definition today_ms (e : Env) : Z :=
  (env_now e + env_tz e) / ms_per_day * ms_per_day - env_tz e.

(** The local calendar day (day number) of the current instant. *)
Definition local_day (e : Env) : Z := (env_now e + env_tz e) / ms_per_day.

(** Decimal digits of a non-negative integer ([String(n)]). *)
Fixpoint digits_fuel (fuel : nat) (n : Z) (acc : string) : string :=
  match fuel with
  | O => acc
  | S f =>
      let c := ascii_of_nat (Z.to_nat (48 + n mod 10)) in
      if n <? 10 then String c acc else digits_fuel f (n / 10) (String c acc)
  end.

Definition Z_to_decimal (n : Z) : string := digits_fuel 40 n "".

(** [generateBookingId] *)
Definition generateBookingId (e : Env) : string :=
  "booking_" ++ Z_to_decimal (env_now e) ++ "_" ++ env_rand e.

Definition opt_str_eqb (a b : option string) : bool :=
  match a, b with
  | Some x, Some y => String.eqb x y
  | None, None => true
  | _, _ => false
  end.

(** ** The booking service ([services/bookingService.ts]) *)

Section BookingService.

(** The engine's [Date.parse] on strings that are not ECMAScript date-only
    forms (implementation-specific; [None] is NaN). *)
Variable parse_fallback : string -> option Z.

(** [new Date(s).valueOf()] for a string [s]. *)
Definition Date_parse (s : string) : option Z :=
  match iso_date_only s with
  | Some r => r
  | None => parse_fallback s
  end.

(** [validateBooking]: every check pushes its message; none short-circuits. *)
Definition validateBooking (e : Env) (b : Booking) : BookingValidationResult :=
  let errors0 : list string := [] in
  let errors1 :=
    if (roomId b =? 0) || (roomId b <=? 0) then (errors0 ++ [err_room])%list else errors0 in
  let errors2 :=
    if str_falsy (date b) || negb (re_date (date b)) then (errors1 ++ [err_date])%list else errors1 in
  let errors3 :=
    if str_falsy (time b) || negb (re_time (time b)) then (errors2 ++ [err_time])%list else errors2 in
  let bookingDate := Date_parse (date b) in
  let today := today_ms e in
  let errors4 :=
    match bookingDate with
    | Some t => if t <? today then (errors3 ++ [err_past])%list else errors3
    | None => errors3   (* NaN < today is false *)
    end in
  {| isValid := match errors4 with [] => true | _ => false end; errors := errors4 |}.

(** [validateBooking] applied to a parsed array element: [None] when it
    throws (reading [roomId] of [null]).  On a non-object every field is
    [undefined]: three messages, and [new Date(undefined)] is NaN. *)
Definition validateElem (e : Env) (j : JElem) : option BookingValidationResult :=
  match j with
  | JObj b => Some (validateBooking e b)
  | JNull => None
  | JOther => Some {| isValid := false; errors := [err_room; err_date; err_time] |}
  end.

(** [setItem], which throws when the medium refuses the write. *)
Definition setVersion (e : Env) (s : LocalStorage) (v : string) : option LocalStorage :=
  if env_full e then None else Some (mkLS (Some v) (ls_bookings s)).

Definition setBookings (e : Env) (s : LocalStorage) (v : Stored) : option LocalStorage :=
  if env_full e then None else Some (mkLS (ls_version s) (Some v)).

(** [initializeStorage]; [None] when it throws. *)
Definition initializeStorage (e : Env) (s : LocalStorage) : option LocalStorage :=
  if opt_str_eqb (ls_version s) (Some STORAGE_VERSION) then Some s
  else setVersion e s STORAGE_VERSION.

(** [bookings.filter(booking => validateBooking(booking).isValid)];
    [None] when the callback throws. *)
Fixpoint filterValid (e : Env) (l : list JElem) : option (list Booking) :=
  match l with
  | [] => Some []
  | j :: rest =>
      match validateElem e j with
      | None => None
      | Some v =>
          match filterValid e rest with
          | None => None
          | Some r =>
              if isValid v then
                match j with JObj b => Some (b :: r) | _ => Some r end
              else Some r
          end
      end
  end.

(** [getBookings]: every exception is caught and yields [[]]. *)
Definition getBookings (e : Env) (s : LocalStorage) : LocalStorage * list Booking :=
  match initializeStorage e s with
  | None => (s, [])
  | Some s1 =>
      (s1, match ls_bookings s1 with
           | None => []
           | Some SCorrupt => []
           | Some (SArray l) =>
               match filterValid e l with Some r => r | None => [] end
           end)
  end.

Definition same_slot (roomId0 : Z) (date0 time0 : string) (b : Booking) : bool :=
  (roomId b =? roomId0) && String.eqb (date b) date0 && String.eqb (time b) time0.

(** [isSlotAvailable] *)
Definition isSlotAvailable (e : Env) (s : LocalStorage) (roomId0 : Z) (date0 time0 : string)
  : LocalStorage * bool :=
  if (roomId0 =? 0) || str_falsy date0 || str_falsy time0 then (s, false)
  else
    let '(s1, bookings) := getBookings e s in
    (s1, negb (existsb (same_slot roomId0 date0 time0) bookings)).

(** [getBookingsForRoomAndDate] *)
Definition getBookingsForRoomAndDate (e : Env) (s : LocalStorage) (roomId0 : Z) (date0 : string)
  : LocalStorage * list Booking :=
  let '(s1, bookings) := getBookings e s in
  (s1, filter (fun b => (roomId b =? roomId0) && String.eqb (date b) date0) bookings).

(** [booking.duration || 60] *)
Definition default_duration (d : option Z) : Z :=
  match d with
  | None => 60
  | Some n => if n =? 0 then 60 else n
  end.

(** [saveBooking] *)
Definition saveBooking (e : Env) (s : LocalStorage) (booking : Booking)
  : LocalStorage * Outcome Booking :=
  match initializeStorage e s with
  | None => (s, Rejected msg_failed_save)
  | Some s1 =>
      let validation := validateBooking e booking in
      if negb (isValid validation) then
        (s1, Rejected ("Validation failed: " ++ String.concat ", " (errors validation)))
      else
        let '(s2, available) := isSlotAvailable e s1 (roomId booking) (date booking) (time booking) in
        if negb available then (s2, Rejected msg_conflict)
        else
          let '(s3, bookings) := getBookings e s2 in
          let newBooking :=
            {| id := Some (generateBookingId e);
               roomId := roomId booking;
               date := date booking;
               time := time booking;
               duration := Some (default_duration (duration booking));
               bookedBy := bookedBy booking;
               createdAt := Some (env_now e) |} in
          match setBookings e s3 (SArray (map JObj ((bookings ++ [newBooking])%list))) with
          | None => (s3, Rejected msg_failed_save)
          | Some s4 => (s4, Resolved newBooking)
          end
  end.

(** [deleteBooking] *)
Definition deleteBooking (e : Env) (s : LocalStorage) (bookingId : string)
  : LocalStorage * Outcome bool :=
  let '(s1, bookings) := getBookings e s in
  let filteredBookings :=
    filter (fun b => negb (opt_str_eqb (id b) (Some bookingId))) bookings in
  if (List.length filteredBookings =? List.length bookings)%nat then (s1, Rejected msg_not_found)
  else
    match setBookings e s1 (SArray (map JObj filteredBookings)) with
    | None => (s1, Rejected msg_failed_delete)
    | Some s2 => (s2, Resolved true)
    end.

(** [clearAllBookings] *)
Definition clearAllBookings (s : LocalStorage) : LocalStorage :=
  mkLS (ls_version s) None.

(** Every call a client of the module can make, each under its own
    environment (the clock may move between calls). *)
(** Shape of a stored booking that went through [saveBooking]. *)
Definition wf_booking (b : Booking) : Prop :=
  0 < roomId b /\ re_date (date b) = true /\ re_time (time b) = true.

Definition triple (b : Booking) : Z * string * string := (roomId b, date b, time b).

(** Stores reached from empty storage: no bookings key, or a version-stamped
    array of well-formed bookings with pairwise distinct slots. *)
Definition store_inv (s : LocalStorage) : Prop :=
  ls_bookings s = None \/
  (ls_version s = Some STORAGE_VERSION /\
   exists l, ls_bookings s = Some (SArray (map JObj l)) /\
             Forall wf_booking l /\ NoDup (map triple l)).

(** [validateBooking] accepts [b] at [e]. *)
Definition valid_at (e : Env) (b : Booking) : bool := isValid (validateBooking e b).

(** The past-date test of [validateBooking]. *)
Definition is_past (e : Env) (d : string) : bool :=
  match Date_parse d with Some t => t <? today_ms e | None => false end.

(** The calendar day named by a date-only string. *)
Definition calendar_day (s : string) : option Z :=
  match iso_date_only s with Some (Some t) => Some (t / ms_per_day) | _ => None end.

(** What [getBookings] returns from the raw value once storage is initialised. *)
Definition read_list (e : Env) (o : option Stored) : list Booking :=
  match o with
  | None => []
  | Some SCorrupt => []
  | Some (SArray l) => match filterValid e l with Some r => r | None => [] end
  end.

(** The record [saveBooking] builds from an accepted candidate. *)
Definition new_booking (e : Env) (booking : Booking) : Booking :=
  {| id := Some (generateBookingId e);
     roomId := roomId booking;
     date := date booking;
     time := time booking;
     duration := Some (default_duration (duration booking));
     bookedBy := bookedBy booking;
     createdAt := Some (env_now e) |}.

Inductive step : LocalStorage -> LocalStorage -> Prop :=
| step_save e s b : step s (fst (saveBooking e s b))
| step_delete e s i : step s (fst (deleteBooking e s i))
| step_clear s : step s (clearAllBookings s)
| step_list e s : step s (fst (getBookings e s))
| step_available e s r d t : step s (fst (isSlotAvailable e s r d t))
| step_room_date e s r d : step s (fst (getBookingsForRoomAndDate e s r d)).

Inductive reachable : LocalStorage -> Prop :=
| reachable_empty : reachable empty_storage
| reachable_step s s' : reachable s -> step s s' -> reachable s'.

(** ** Callers in [app.ts] *)

(** [validateBookingInput] of [app.ts]; the room id is the result of
    [parseInt], [None] standing for NaN. *)
Definition in_room := "Seleziona una sala valida".
Definition in_date := "Seleziona una data".
Definition in_past := "Non puoi prenotare date passate".
Definition in_time := "Seleziona un orario".

Definition validateBookingInput (e : Env) (roomId0 : option Z) (date0 time0 : string)
  : BookingValidationResult :=
  let errors0 : list string := [] in
  let errors1 :=
    if match roomId0 with None => true | Some r => r =? 0 end
    then (errors0 ++ [in_room])%list else errors0 in
  let errors2 :=
    if str_falsy date0 then (errors1 ++ [in_date])%list
    else
      match Date_parse date0 with
      | Some t => if t <? today_ms e then (errors1 ++ [in_past])%list
                  else errors1
      | None => errors1   (* NaN < today is false *)
      end in
  let errors3 :=
    if str_falsy time0 then (errors2 ++ [in_time])%list else errors2 in
  {| isValid := match errors3 with [] => true | _ => false end; errors := errors3 |}.

Definition msg_taken := "La sala è già prenotata per questo orario".

(** The storage and state part of [handleBookingSubmission]: client-side
    validation, the availability double-check, [saveBooking], and the push
    of the saved booking onto [appState.bookings].  The result is the saved
    booking (success message) or the text passed to [showMessage] as an
    error.  The success message, [resetForm] and the DOM updates are not
    modelled; [resetForm] clears [selectedRoom], so its
    [updateAvailableTimeSlots] calls return before reading storage.
    A valid input always has a numeric room id, so the [None] case is the
    rejection branch. *)
Definition handleBookingSubmission (e : Env) (s : LocalStorage) (appBookings : list Booking)
  (roomIdInput : option Z) (date0 time0 : string)
  : LocalStorage * list Booking * Outcome Booking :=
  let validationResult := validateBookingInput e roomIdInput date0 time0 in
  match isValid validationResult, roomIdInput with
  | true, Some roomId0 =>
      let '(s1, available) := isSlotAvailable e s roomId0 date0 time0 in
      if negb available then (s1, appBookings, Rejected msg_taken)
      else
        let booking := {| id := None; roomId := roomId0; date := date0; time := time0;
                          duration := None; bookedBy := None; createdAt := None |} in
        match saveBooking e s1 booking with
        | (s2, Resolved savedBooking) => (s2, (appBookings ++ [savedBooking])%list, Resolved savedBooking)
        | (s2, Rejected m) => (s2, appBookings, Rejected m)
        end
  | _, _ => (s, appBookings, Rejected (hd "" (errors validationResult)))
  end.

(** [updateAvailableTimeSlots] of [app.ts]: for each option value of the
    time select, [None] when the option is left untouched (the empty
    placeholder) and [Some disabled] otherwise; together with the new
    [selectedTime].  [None] as a whole when the function returns early.
    [selectedRoom] is [null] ([None]) or the [parseInt] of a room option's
    numeric value. *)
Definition updateAvailableTimeSlots (e : Env) (s : LocalStorage)
  (selectedRoom : option Z) (selectedDate selectedTime : option string) (options : list string)
  : LocalStorage * option (list (string * option bool) * option string) :=
  match selectedRoom, selectedDate with
  | Some r, Some d =>
      if (r =? 0) || str_falsy d then (s, None)
      else
        let '(s1, bookings) := getBookingsForRoomAndDate e s r d in
        let bookedTimes := map time bookings in
        let isBooked v := existsb (String.eqb v) bookedTimes in
        let opts := map (fun v => (v, if str_falsy v then None else Some (isBooked v))) options in
        let selectedTime' :=
          match selectedTime with
          | Some t => if negb (str_falsy t) && isBooked t then None else Some t
          | None => None
          end in
        (s1, Some (opts, selectedTime'))
  | _, _ => (s, None)
  end.

(** Year, month and day digits of a string of the form [YYYY-MM-DD]. *)
Definition ymd_fields (s : string) : option (Z * Z * Z) :=
  match s with
  | String y1 (String y2 (String y3 (String y4 (String _
      (String m1 (String m2 (String _ (String a1 (String a2 EmptyString))))))))) =>
      if re_date s then Some (dec4 y1 y2 y3 y4, dec2 m1 m2, dec2 a1 a2) else None
  | _ => None
  end.

(** Decimal reading of a digit string, and the digit-string test. *)
Fixpoint dec_value_from (v : Z) (s : string) : Z :=
  match s with
  | EmptyString => v
  | String c r => dec_value_from (v * 10 + digit_val c) r
  end.

Fixpoint all_digits (s : string) : bool :=
  match s with
  | EmptyString => true
  | String c r => is_digit c && all_digits r
  end.

(** ** Sample data *)

(** An engine whose fallback parser rejects every other string. *)
Definition no_fallback : string -> option Z := fun _ => None.

(** 2024-06-15 01:00 UTC and 2024-06-25 01:00 UTC, in a UTC time zone. *)
Definition ex_env1 : Env := mkEnv (19889 * ms_per_day + 3600000) 0 false "k3x9q2m7a".
Definition ex_env2 : Env := mkEnv (19899 * ms_per_day + 3600000) 0 false "p0w8e4r1t".

(** One hour after UTC midnight of 2024-06-15, in a time zone five hours
    behind UTC (local date 2024-06-14). *)
Definition ex_env3 : Env := mkEnv (19889 * ms_per_day + 3600000) (-18000000) false "k3x9q2m7a".

Definition ex_booking : Booking := mkBooking None 1 "2024-06-20" "09:00" None None None.

(** The same room and date at 10:00. *)
Definition ex_booking2 : Booking := mkBooking None 1 "2024-06-20" "10:00" None None None.

(** ** Properties of the validator *)

Lemma date_cond (s : string) : str_falsy s || negb (re_date s) = negb (re_date s).
Proof. destruct s; reflexivity. Qed.

Lemma time_cond (s : string) : str_falsy s || negb (re_time s) = negb (re_time s).
Proof. destruct s; reflexivity. Qed.

Lemma room_cond (r : Z) : (r =? 0) || (r <=? 0) = (r <=? 0).
Proof. destruct (Z.eqb_spec r 0) as [->|]; reflexivity. Qed.

Lemma re_date_nonempty (s : string) : re_date s = true -> str_falsy s = false.
Proof. destruct s; [discriminate | reflexivity]. Qed.

Lemma re_time_nonempty (s : string) : re_time s = true -> str_falsy s = false.
Proof. destruct s; [discriminate | reflexivity]. Qed.

(** The messages of [validateBooking], in the order the checks run. *)
Lemma validate_errors (e : Env) (b : Booking) :
  errors (validateBooking e b) =
    ((if roomId b <=? 0 then [err_room] else []) ++
     (if re_date (date b) then [] else [err_date]) ++
     (if re_time (time b) then [] else [err_time]) ++
     (if is_past e (date b) then [err_past] else []))%list.
Proof.
  unfold validateBooking, is_past. cbv zeta. cbn [errors].
  rewrite room_cond, date_cond, time_cond.
  destruct (roomId b <=? 0), (re_date (date b)), (re_time (time b)),
    (Date_parse (date b)) as [t|]; try destruct (t <? today_ms e); reflexivity.
Qed.

Lemma validate_isValid (e : Env) (b : Booking) :
  isValid (validateBooking e b) =
  match errors (validateBooking e b) with [] => true | _ => false end.
Proof. reflexivity. Qed.

Lemma valid_at_iff (e : Env) (b : Booking) :
  valid_at e b = true <->
  0 < roomId b /\ re_date (date b) = true /\ re_time (time b) = true /\
  is_past e (date b) = false.
Proof.
  unfold valid_at. rewrite validate_isValid, validate_errors.
  destruct (Z.leb_spec (roomId b) 0), (re_date (date b)), (re_time (time b)),
    (is_past e (date b)); simpl; split; intuition (try lia; try discriminate).
Qed.

(** [validateBooking] reads only [roomId], [date] and [time]. *)
Lemma validate_fields (e : Env) (b b' : Booking) :
  roomId b = roomId b' -> date b = date b' -> time b = time b' ->
  validateBooking e b = validateBooking e b'.
Proof. intros Hr Hd Ht. unfold validateBooking. rewrite Hr, Hd, Ht. reflexivity. Qed.

Lemma wf_errors (e : Env) (b : Booking) :
  wf_booking b ->
  errors (validateBooking e b) = if is_past e (date b) then [err_past] else [].
Proof.
  intros (Hr & Hd & Ht). rewrite validate_errors, Hd, Ht.
  destruct (Z.leb_spec (roomId b) 0); [lia|]. reflexivity.
Qed.

Lemma valid_wf (e : Env) (b : Booking) : valid_at e b = true -> wf_booking b.
Proof. intros H. apply valid_at_iff in H. unfold wf_booking. tauto. Qed.

(** ** Properties of reading the store *)

Lemma filterValid_map (e : Env) (l : list Booking) :
  filterValid e (map JObj l) = Some (filter (valid_at e) l).
Proof.
  induction l as [|b l IH]; [reflexivity|].
  cbn [map filterValid validateElem filter]. rewrite IH. unfold valid_at. destruct (isValid (validateBooking e b)); reflexivity.
Qed.

Lemma filterValid_sound (e : Env) (l : list JElem) (r : list Booking) :
  filterValid e l = Some r ->
  forall b, In b r -> valid_at e b = true /\ In (JObj b) l.
Proof.
  revert r. induction l as [|j l IH]; cbn [filterValid In]; intros r H b Hin.
  - injection H as <-. contradiction.
  - destruct (validateElem e j) as [v|] eqn:Hv; [|discriminate].
    destruct (filterValid e l) as [r'|] eqn:Hf; [|discriminate].
    assert (Hrest : In b r' -> valid_at e b = true /\ In (JObj b) (j :: l))
      by (intros Hb; destruct (IH r' eq_refl b Hb); simpl; auto).
    destruct (isValid v) eqn:Hval.
    + destruct j as [b0| |]; injection H as <-; auto.
      destruct Hin as [<-|Hin]; auto.
      simpl in Hv. injection Hv as <-. simpl. auto.
    + injection H as <-. auto.
Qed.

Lemma read_list_valid (e : Env) (o : option Stored) (b : Booking) :
  In b (read_list e o) -> valid_at e b = true.
Proof.
  destruct o as [[l|]|]; simpl; try contradiction.
  destruct (filterValid e l) eqn:Hf; [|contradiction].
  intros Hin. apply (filterValid_sound e l l0 Hf b Hin).
Qed.

Lemma init_some (e : Env) (s s1 : LocalStorage) :
  initializeStorage e s = Some s1 ->
  ls_bookings s1 = ls_bookings s /\ ls_version s1 = Some STORAGE_VERSION.
Proof.
  unfold initializeStorage, setVersion.
  destruct (opt_str_eqb (ls_version s) (Some STORAGE_VERSION)) eqn:H.
  - injection 1 as <-. split; [reflexivity|].
    destruct (ls_version s) as [v|]; [|discriminate].
    simpl in H. apply String.eqb_eq in H. subst. reflexivity.
  - destruct (env_full e); [discriminate|]. injection 1 as <-. auto.
Qed.

Lemma init_stamped (e : Env) (s : LocalStorage) :
  ls_version s = Some STORAGE_VERSION -> initializeStorage e s = Some s.
Proof. intros H. unfold initializeStorage. rewrite H. reflexivity. Qed.

Lemma getBookings_eq (e : Env) (s : LocalStorage) :
  getBookings e s =
  match initializeStorage e s with
  | None => (s, [])
  | Some s1 => (s1, read_list e (ls_bookings s))
  end.
Proof.
  unfold getBookings. destruct (initializeStorage e s) as [s1|] eqn:H; [|reflexivity].
  destruct (init_some e s s1 H) as [Hb _]. rewrite Hb. reflexivity.
Qed.

Lemma getBookings_valid (e : Env) (s : LocalStorage) (b : Booking) :
  In b (snd (getBookings e s)) -> valid_at e b = true.
Proof.
  rewrite getBookings_eq. destruct (initializeStorage e s); simpl; [|contradiction].
  apply read_list_valid.
Qed.

Lemma getBookings_bookings (e : Env) (s : LocalStorage) :
  ls_bookings (fst (getBookings e s)) = ls_bookings s.
Proof.
  rewrite getBookings_eq. destruct (initializeStorage e s) as [s1|] eqn:H; [|reflexivity].
  apply (init_some e s s1 H).
Qed.

Lemma getBookings_stamped (e : Env) (s : LocalStorage) :
  ls_version s = Some STORAGE_VERSION ->
  getBookings e s = (s, read_list e (ls_bookings s)).
Proof. intros H. rewrite getBookings_eq, init_stamped by exact H. reflexivity. Qed.

Lemma isSlotAvailable_eq (e : Env) (s : LocalStorage) (r : Z) (d t : string) :
  isSlotAvailable e s r d t =
  if (r =? 0) || str_falsy d || str_falsy t then (s, false)
  else (fst (getBookings e s), negb (existsb (same_slot r d t) (snd (getBookings e s)))).
Proof.
  unfold isSlotAvailable. destruct ((r =? 0) || str_falsy d || str_falsy t); [reflexivity|].
  destruct (getBookings e s); reflexivity.
Qed.

(** ** The write paths *)

(** [saveBooking] after its guards are evaluated. *)
Lemma saveBooking_eq (e : Env) (s : LocalStorage) (b : Booking) :
  saveBooking e s b =
  match initializeStorage e s with
  | None => (s, Rejected msg_failed_save)
  | Some s1 =>
      if negb (valid_at e b) then
        (s1, Rejected ("Validation failed: " ++ String.concat ", " (errors (validateBooking e b))))
      else if existsb (same_slot (roomId b) (date b) (time b)) (read_list e (ls_bookings s))
      then (s1, Rejected msg_conflict)
      else
        match setBookings e s1 (SArray (map JObj (read_list e (ls_bookings s) ++ [new_booking e b])%list)) with
        | None => (s1, Rejected msg_failed_save)
        | Some s4 => (s4, Resolved (new_booking e b))
        end
  end.
Proof.
  unfold saveBooking. destruct (initializeStorage e s) as [s1|] eqn:Hi; [|reflexivity].
  destruct (init_some e s s1 Hi) as [Hb Hv].
  unfold valid_at. destruct (isValid (validateBooking e b)) eqn:Hval; cbn [negb]; [|reflexivity].
  destruct (proj1 (valid_at_iff e b) Hval) as (Hr & Hd & Ht & _).
  rewrite isSlotAvailable_eq, (re_date_nonempty _ Hd), (re_time_nonempty _ Ht).
  replace (roomId b =? 0) with false by (symmetry; apply Z.eqb_neq; lia).
  cbn [orb]. rewrite getBookings_stamped by exact Hv. cbn [fst snd]. rewrite Hb.
  destruct (existsb (same_slot (roomId b) (date b) (time b)) (read_list e (ls_bookings s)));
    cbn [negb]; [reflexivity|].
  rewrite getBookings_stamped by exact Hv. rewrite Hb. reflexivity.
Qed.

Lemma save_rejected (e : Env) (s s' : LocalStorage) (b : Booking) (m : string) :
  saveBooking e s b = (s', Rejected m) -> ls_bookings s' = ls_bookings s.
Proof.
  rewrite saveBooking_eq.
  destruct (initializeStorage e s) as [s1|] eqn:Hi; [|injection 1 as <- _; reflexivity].
  destruct (init_some e s s1 Hi) as [Hb _].
  destruct (negb (valid_at e b)); [injection 1 as <- _; exact Hb|].
  destruct (existsb _ _); [injection 1 as <- _; exact Hb|].
  destruct (setBookings _ _ _); [discriminate|].
  injection 1 as <- _; exact Hb.
Qed.

Lemma save_resolved (e : Env) (s s' : LocalStorage) (b nb : Booking) :
  saveBooking e s b = (s', Resolved nb) ->
  nb = new_booking e b /\ valid_at e b = true /\ env_full e = false /\
  existsb (same_slot (roomId b) (date b) (time b)) (snd (getBookings e s)) = false /\
  ls_version s' = Some STORAGE_VERSION /\
  ls_bookings s' = Some (SArray (map JObj (snd (getBookings e s) ++ [nb])%list)).
Proof.
  rewrite saveBooking_eq, getBookings_eq.
  destruct (initializeStorage e s) as [s1|] eqn:Hi; [|discriminate].
  destruct (init_some e s s1 Hi) as [Hb Hv]. cbn [snd].
  destruct (valid_at e b) eqn:Hval; cbn [negb]; [|discriminate].
  destruct (existsb _ _) eqn:Hex; [discriminate|].
  unfold setBookings. destruct (env_full e) eqn:Hf; [discriminate|].
  injection 1 as <- <-. cbn. rewrite Hv. auto 7.
Qed.

Lemma NoDup_triples_filter (keep : Booking -> bool) (bs : list Booking) :
  NoDup (map triple bs) -> NoDup (map triple (filter keep bs)).
Proof.
  intros Hnd. induction bs as [|x rest IHrest]; [exact Hnd|].
  cbn in Hnd. apply NoDup_cons_iff in Hnd as [Hx Hrest].
  cbn. destruct (keep x); [|exact (IHrest Hrest)].
  cbn. apply NoDup_cons; [|exact (IHrest Hrest)].
  intros Hin. apply Hx. apply in_map_iff in Hin as (y & Hy & Hyin).
  apply filter_In in Hyin as [Hyin _]. rewrite <- Hy. apply in_map. exact Hyin.
Qed.

Lemma filter_length_eq {A : Type} (p : A -> bool) (l : list A) :
  List.length (filter p l) = List.length l <-> forall x, In x l -> p x = true.
Proof.
  split.
  - intros H x Hx. apply filter_length_forallb in H.
    rewrite forallb_forall in H. auto.
  - intros H. rewrite forallb_filter_id; [reflexivity|].
    apply forallb_forall. auto.
Qed.

(** ** The store invariant *)

Lemma read_list_inv_wf (e : Env) (l : list Booking) :
  read_list e (Some (SArray (map JObj l))) = filter (valid_at e) l.
Proof. cbn [read_list]. rewrite filterValid_map. reflexivity. Qed.

Lemma inv_read (e : Env) (s : LocalStorage) :
  store_inv s ->
  exists l, read_list e (ls_bookings s) = filter (valid_at e) l /\
            Forall wf_booking l /\ NoDup (map triple l) /\
            (forall b, In b l -> In (JObj b) (match ls_bookings s with Some (SArray x) => x | _ => [] end)).
Proof.
  intros [Hn | (_ & l & Hl & Hwf & Hnd)].
  - exists []. rewrite Hn. repeat split; auto; constructor.
  - exists l. rewrite Hl, read_list_inv_wf. repeat split; auto.
    intros b Hb. apply in_map. exact Hb.
Qed.

Lemma getBookings_inv (e : Env) (s : LocalStorage) :
  store_inv s -> store_inv (fst (getBookings e s)).
Proof.
  intros [Hn | (Hv & Hrest)].
  - left. rewrite getBookings_bookings. exact Hn.
  - rewrite getBookings_stamped by exact Hv. right. auto.
Qed.

Lemma filter_wf (e : Env) (p : Booking -> bool) (l : list Booking) :
  Forall wf_booking (filter p (filter (valid_at e) l)).
Proof.
  apply Forall_forall. intros b Hb.
  apply filter_In in Hb as [Hb _]. apply filter_In in Hb as [_ Hb].
  apply (valid_wf e b Hb).
Qed.

Lemma inv_getBookings (e : Env) (s : LocalStorage) :
  store_inv s ->
  exists l, snd (getBookings e s) = filter (valid_at e) l /\
            Forall wf_booking l /\ NoDup (map triple l).
Proof.
  intros Hinv. destruct (inv_read e s Hinv) as (l & Hr & Hwf & Hnd & _).
  rewrite getBookings_eq. destruct (initializeStorage e s); cbn [snd].
  - exists l. auto.
  - exists []. repeat split; constructor.
Qed.

Lemma save_version (e : Env) (s : LocalStorage) (b : Booking) :
  ls_version s = Some STORAGE_VERSION ->
  ls_version (fst (saveBooking e s b)) = Some STORAGE_VERSION.
Proof.
  intros Hv. rewrite saveBooking_eq, init_stamped by exact Hv.
  destruct (negb (valid_at e b)); [exact Hv|].
  destruct (existsb _ _); [exact Hv|].
  unfold setBookings. destruct (env_full e); exact Hv.
Qed.

Lemma same_slot_triple (b x : Booking) :
  triple x = triple b -> same_slot (roomId b) (date b) (time b) x = true.
Proof.
  unfold triple, same_slot. intros Heq. injection Heq as H1 H2 H3.
  rewrite H1, H2, H3, Z.eqb_refl, !String.eqb_refl. reflexivity.
Qed.

Lemma save_inv (e : Env) (s : LocalStorage) (b : Booking) :
  store_inv s -> store_inv (fst (saveBooking e s b)).
Proof.
  intros Hinv. destruct (saveBooking e s b) as [s' [nb|m]] eqn:Hs; cbn [fst].
  - destruct (save_resolved e s s' b nb Hs) as (-> & Hval & _ & Hex & Hv' & Hb').
    destruct (inv_getBookings e s Hinv) as (l & Hr & Hwf & Hnd).
    rewrite Hr in Hex, Hb'.
    right. split; [exact Hv'|]. eexists. split; [exact Hb'|]. split.
    + apply Forall_app. split.
      * rewrite <- (filter_true (filter (valid_at e) l)). apply filter_wf.
      * constructor; [|constructor]. apply valid_wf with e.
        unfold valid_at in *. rewrite <- Hval. reflexivity.
    + rewrite map_app. apply NoDup_app.
      * apply NoDup_triples_filter. exact Hnd.
      * constructor; [intros []|constructor].
      * intros t Ht [Heq|[]]. apply in_map_iff in Ht as (x & Hx & Hxin).
        assert (Hsame : same_slot (roomId b) (date b) (time b) x = true).
        { apply same_slot_triple. rewrite Hx, <- Heq. reflexivity. }
        assert (Htrue : existsb (same_slot (roomId b) (date b) (time b))
                          (filter (valid_at e) l) = true)
          by (apply existsb_exists; eauto).
        congruence.
  - pose proof (save_rejected e s s' b m Hs) as Hb.
    destruct Hinv as [Hn | (Hv & l & Hl & Hwf & Hnd)].
    + left. congruence.
    + right. split.
      * pose proof (save_version e s b Hv) as Hv'. rewrite Hs in Hv'. exact Hv'.
      * exists l. rewrite Hb. auto.
Qed.

Lemma delete_inv (e : Env) (s : LocalStorage) (i : string) :
  store_inv s -> store_inv (fst (deleteBooking e s i)).
Proof.
  intros Hinv. unfold deleteBooking. rewrite getBookings_eq.
  destruct (initializeStorage e s) as [s1|] eqn:Hi.
  - destruct (init_some e s s1 Hi) as [Hb1 Hv1].
    destruct (inv_read e s Hinv) as (l & Hr & Hwf & Hnd & _). rewrite Hr.
    destruct (_ =? _)%nat; cbn [fst].
    + destruct Hinv as [Hn | (_ & l' & Hl' & Hwf' & Hnd')].
      * left. congruence.
      * right. split; [exact Hv1|]. exists l'. rewrite Hb1. auto.
    + unfold setBookings. destruct (env_full e); cbn [fst].
      * destruct Hinv as [Hn | (_ & l' & Hl' & Hwf' & Hnd')].
        -- left. congruence.
        -- right. split; [exact Hv1|]. exists l'. rewrite Hb1. auto.
      * right. split; [exact Hv1|]. eexists. split; [reflexivity|]. split.
        -- apply filter_wf.
        -- do 2 apply NoDup_triples_filter. exact Hnd.
  - cbn [fst]. exact Hinv.
Qed.

Lemma step_inv (s s' : LocalStorage) : store_inv s -> step s s' -> store_inv s'.
Proof.
  intros Hinv Hst. destruct Hst as [e s0 b|e s0 i|s0|e s0|e s0 r d t|e s0 r d].
  - apply save_inv. exact Hinv.
  - apply delete_inv. exact Hinv.
  - left. reflexivity.
  - apply getBookings_inv. exact Hinv.
  - rewrite isSlotAvailable_eq. destruct (_ || _ || _); [exact Hinv|].
    apply getBookings_inv. exact Hinv.
  - unfold getBookingsForRoomAndDate. pose proof (getBookings_inv e s0 Hinv) as H.
    destruct (getBookings e s0). exact H.
Qed.

Lemma reachable_inv (s : LocalStorage) : reachable s -> store_inv s.
Proof.
  induction 1 as [|s s' _ IH Hst].
  - left. reflexivity.
  - apply (step_inv s s' IH Hst).
Qed.

(** ** Further helper lemmas *)

Lemma validate_in_iff (e : Env) (b : Booking) :
  (In err_room (errors (validateBooking e b)) <-> roomId b <= 0) /\
  (In err_date (errors (validateBooking e b)) <-> re_date (date b) = false) /\
  (In err_time (errors (validateBooking e b)) <-> re_time (time b) = false) /\
  (In err_past (errors (validateBooking e b)) <->
     exists t, Date_parse (date b) = Some t /\ t < today_ms e).
Proof.
  rewrite validate_errors. unfold is_past.
  destruct (Z.leb_spec (roomId b) 0), (re_date (date b)), (re_time (time b)),
    (Date_parse (date b)) as [t|]; try destruct (Z.ltb_spec t (today_ms e));
    cbn; repeat split; intros;
    repeat match goal with
           | H : _ \/ _ |- _ => destruct H
           | H : exists _, _ |- _ => destruct H as (? & ? & ?)
           | H : Some _ = Some _ |- _ => injection H as <-
           end;
    try discriminate; try contradiction; try lia; eauto 6.
Qed.

Lemma opt_str_eqb_some (o : option string) (i : string) :
  opt_str_eqb o (Some i) = true <-> o = Some i.
Proof.
  destruct o as [x|]; cbn; [|split; discriminate].
  rewrite String.eqb_eq. split; [intros ->|injection 1]; auto.
Qed.

Lemma make_date_mult (y m d t : Z) :
  make_date y m d = Some t -> t = days_from_civil y m d * ms_per_day.
Proof. unfold make_date. destruct (_ && _); [injection 1 as <-; reflexivity | discriminate]. Qed.

Lemma iso_date_only_mult (s : string) (t : Z) :
  iso_date_only s = Some (Some t) -> exists k, t = k * ms_per_day.
Proof.
  unfold iso_date_only.
  destruct s as [|a1 [|a2 [|a3 [|a4 [|a5 [|a6 [|a7 [|a8 [|a9 [|a10 [|a11 s]]]]]]]]]]];
    try discriminate;
    repeat match goal with |- context [if ?c then _ else _] => destruct c end;
    try discriminate;
    intros H; injection H as H; try apply make_date_mult in H; subst; eexists; reflexivity.
Qed.

Lemma delete_cases (e : Env) (s : LocalStorage) (i : string) :
  let bs := snd (getBookings e s) in
  let kept := filter (fun b => negb (opt_str_eqb (id b) (Some i))) bs in
  (~ (exists b, In b bs /\ id b = Some i) ->
     deleteBooking e s i = (fst (getBookings e s), Rejected msg_not_found)) /\
  ((exists b, In b bs /\ id b = Some i) ->
     deleteBooking e s i =
     match setBookings e (fst (getBookings e s)) (SArray (map JObj kept)) with
     | None => (fst (getBookings e s), Rejected msg_failed_delete)
     | Some s2 => (s2, Resolved true)
     end).
Proof.
  cbv zeta. unfold deleteBooking. destruct (getBookings e s) as [s1 bs]. cbn [fst snd].
  split.
  - intros Hno. replace (List.length _ =? List.length _)%nat with true; [reflexivity|].
    symmetry. apply Nat.eqb_eq, filter_length_eq. intros x Hx.
    destruct (opt_str_eqb (id x) (Some i)) eqn:E; [|reflexivity].
    exfalso. apply Hno. exists x. split; [exact Hx|]. apply opt_str_eqb_some. exact E.
  - intros (x & Hx & Hid). replace (List.length _ =? List.length _)%nat with false; [reflexivity|].
    symmetry. apply Nat.eqb_neq. intros Heq. apply filter_length_eq with (x := x) in Heq; [|exact Hx].
    apply (proj2 (opt_str_eqb_some (id x) i)) in Hid. rewrite Hid in Heq. discriminate.
Qed.

Lemma validateBookingInput_errors (e : Env) (r : option Z) (d t : string) :
  errors (validateBookingInput e r d t) =
  ((if match r with None => true | Some n => n =? 0 end then [in_room] else []) ++
   (if str_falsy d then [in_date] else if is_past e d then [in_past] else []) ++
   (if str_falsy t then [in_time] else []))%list.
Proof.
  unfold validateBookingInput, is_past. cbv zeta. cbn [errors].
  destruct (match r with None => true | Some n => n =? 0 end), (str_falsy d),
    (Date_parse d) as [x|]; try destruct (x <? today_ms e); destruct (str_falsy t);
    reflexivity.
Qed.

Lemma validateBookingInput_isValid (e : Env) (r : option Z) (d t : string) :
  isValid (validateBookingInput e r d t) =
  match errors (validateBookingInput e r d t) with [] => true | _ => false end.
Proof. reflexivity. Qed.

Lemma str_falsy_iff (s : string) : str_falsy s = true <-> s = "".
Proof. destruct s; cbn; split; congruence. Qed.

Lemma filterValid_null (e : Env) (l : list JElem) :
  In JNull l -> filterValid e l = None.
Proof.
  induction l as [|j l IH]; [intros []|]. intros [->|Hin]; [reflexivity|].
  cbn [filterValid]. destruct (validateElem e j); [|reflexivity].
  rewrite (IH Hin). reflexivity.
Qed.

Lemma validateBookingInput_valid_iff (e : Env) (r : option Z) (d t : string) :
  isValid (validateBookingInput e r d t) = true <->
  (exists n, r = Some n /\ n <> 0) /\ d <> "" /\ is_past e d = false /\ t <> "".
Proof.
  rewrite validateBookingInput_isValid, validateBookingInput_errors.
  destruct r as [n|]; [destruct (Z.eqb_spec n 0)|];
    destruct (str_falsy d) eqn:Hd; try destruct (is_past e d);
    destruct (str_falsy t) eqn:Ht; cbn;
    rewrite <- ?not_true_iff_false, ?str_falsy_iff in *;
    split; intros H; try discriminate H;
    repeat match goal with
           | H : _ /\ _ |- _ => destruct H
           | H : exists _, _ |- _ => destruct H as (? & ? & ?)
           | H : Some _ = Some _ |- _ => injection H as <-
           end;
    try congruence; eauto 8.
Qed.

(** ** Claims *)

(** C1 (amended): in every store reached from empty storage, no two distinct
    stored records have equal (roomId, date, time); a save whose triple is
    already stored stores nothing and fails with a slot conflict while the
    stored record still passes validation, and with the past-date
    validation error once its date has passed. *)
Theorem slot_uniqueness (s : LocalStorage) (Hreach : reachable s) :
  (forall l i j b1 b2, ls_bookings s = Some (SArray l) ->
     nth_error l i = Some (JObj b1) -> nth_error l j = Some (JObj b2) ->
     triple b1 = triple b2 -> i = j) /\
  (forall e b l b0, ls_bookings s = Some (SArray l) -> In (JObj b0) l ->
     triple b0 = triple b ->
     ls_bookings (fst (saveBooking e s b)) = ls_bookings s /\
     snd (saveBooking e s b) =
       if valid_at e b0 then Rejected msg_conflict
       else Rejected ("Validation failed: " ++ err_past)).
Proof.
  destruct (reachable_inv s Hreach) as [Hn | (Hv & l0 & Hl & Hwf & Hnd)].
  { split; intros *; rewrite Hn; discriminate. }
  split.
  - intros l i j b1 b2 Hs Hi Hj Heq. rewrite Hl in Hs. injection Hs as <-.
    rewrite nth_error_map in Hi, Hj.
    destruct (nth_error l0 i) as [x1|] eqn:E1; [|discriminate].
    destruct (nth_error l0 j) as [x2|] eqn:E2; [|discriminate].
    injection Hi as <-. injection Hj as <-.
    apply (proj1 (NoDup_nth_error (map triple l0)) Hnd).
    + rewrite length_map. apply nth_error_Some. congruence.
    + rewrite !nth_error_map, E1, E2. cbn. congruence.
  - intros e b l b0 Hs Hin Heq. rewrite Hl in Hs. injection Hs as <-.
    apply in_map_iff in Hin as (b0' & Hj & Hin). injection Hj as ->.
    assert (Hwf0 : wf_booking b0) by (rewrite Forall_forall in Hwf; auto).
    unfold triple in Heq. injection Heq as Hr Hd Ht.
    assert (Hsame : validateBooking e b = validateBooking e b0)
      by (apply validate_fields; auto).
    rewrite saveBooking_eq, init_stamped by exact Hv.
    unfold valid_at. rewrite Hsame.
    destruct (isValid (validateBooking e b0)) eqn:Hval; cbn [negb].
    + replace (existsb _ _) with true.
      * split; reflexivity.
      * symmetry. apply existsb_exists. exists b0. split.
        -- rewrite Hl, read_list_inv_wf. apply filter_In. split; assumption.
        -- apply same_slot_triple. unfold triple. congruence.
    + split; [reflexivity|].
      rewrite validate_isValid, (wf_errors e b0 Hwf0) in Hval.
      rewrite (wf_errors e b0 Hwf0).
      destruct (is_past e (date b0)); [reflexivity | discriminate].
Qed.

(** C2 (code defect): [isSlotAvailable] is meant to fail closed (its
    catch returns false), but [getBookings] catches every read error and
    returns [[]]: for a non-zero room and a non-empty date and time, an
    unparseable stored collection, a collection containing [null], or a
    failing version write (full medium) all make the slot reported
    available. *)
Theorem read_error_reports_available (e : Env) (r : Z) (d t : string)
  (Hr : r <> 0) (Hd : d <> "") (Ht : t <> "") :
  (forall v, snd (isSlotAvailable e (mkLS v (Some SCorrupt)) r d t) = true) /\
  (forall v l, In JNull l -> snd (isSlotAvailable e (mkLS v (Some (SArray l))) r d t) = true) /\
  (forall s, ls_version s <> Some STORAGE_VERSION -> env_full e = true ->
     snd (isSlotAvailable e s r d t) = true).
Proof.
  assert (Hguard : forall s, snd (isSlotAvailable e s r d t) =
                     negb (existsb (same_slot r d t) (snd (getBookings e s)))).
  { intros s. rewrite isSlotAvailable_eq.
    replace (r =? 0) with false by (symmetry; apply Z.eqb_neq; exact Hr).
    replace (str_falsy d) with false by (symmetry; destruct d; [contradiction | reflexivity]).
    replace (str_falsy t) with false by (symmetry; destruct t; [contradiction | reflexivity]).
    reflexivity. }
  split; [|split].
  - intros v. rewrite Hguard, getBookings_eq.
    destruct (initializeStorage _ _); reflexivity.
  - intros v l Hnull. rewrite Hguard, getBookings_eq.
    destruct (initializeStorage _ _); [|reflexivity]. cbn [snd ls_bookings read_list].
    rewrite (filterValid_null e l Hnull). reflexivity.
  - intros s Hv Hfull. rewrite Hguard, getBookings_eq.
    replace (initializeStorage e s) with (@None LocalStorage); [reflexivity|].
    unfold initializeStorage, setVersion. rewrite Hfull.
    destruct (opt_str_eqb (ls_version s) (Some STORAGE_VERSION)) eqn:E; [|reflexivity].
    apply opt_str_eqb_some in E. contradiction.
Qed.

(** C3: a rejected save leaves the stored booking collection unchanged; a
    resolved save writes the whole collection once, after all checks. *)
Theorem save_failure_atomic (e : Env) (s : LocalStorage) (b : Booking) :
  match saveBooking e s b with
  | (s', Rejected _) => ls_bookings s' = ls_bookings s
  | (s', Resolved nb) =>
      ls_bookings s' = Some (SArray (map JObj (snd (getBookings e s) ++ [nb])%list))
  end.
Proof.
  destruct (saveBooking e s b) as [s' [nb|m]] eqn:Hs.
  - apply (save_resolved e s s' b nb Hs).
  - apply (save_rejected e s s' b m Hs).
Qed.

(** C4 (amended): a structurally valid, non-conflicting candidate whose
    write succeeds is saved as the candidate plus a generated id, a creation
    timestamp and a duration set to 60 when it is absent or 0 (kept
    otherwise); [getBookings] then returns the earlier list followed by
    exactly that booking. *)
Theorem save_roundtrip (e : Env) (s : LocalStorage) (b : Booking)
  (Hval : valid_at e b = true)
  (Hfree : existsb (same_slot (roomId b) (date b) (time b)) (snd (getBookings e s)) = false)
  (Hwrite : env_full e = false) :
  exists s' nb, saveBooking e s b = (s', Resolved nb) /\
    id nb = Some (generateBookingId e) /\ createdAt nb = Some (env_now e) /\
    roomId nb = roomId b /\ date nb = date b /\ time nb = time b /\
    bookedBy nb = bookedBy b /\
    ((duration b = None \/ duration b = Some 0) -> duration nb = Some 60) /\
    (forall n, duration b = Some n -> n <> 0 -> duration nb = Some n) /\
    snd (getBookings e s') = (snd (getBookings e s) ++ [nb])%list.
Proof.
  assert (Hsave : exists s', saveBooking e s b = (s', Resolved (new_booking e b))).
  { rewrite saveBooking_eq. rewrite getBookings_eq in Hfree.
    destruct (initializeStorage e s) as [s1|] eqn:Hi.
    - rewrite Hval. cbn [negb]. cbn [snd] in Hfree. rewrite Hfree.
      unfold setBookings. rewrite Hwrite. eauto.
    - exfalso. unfold initializeStorage, setVersion in Hi. rewrite Hwrite in Hi.
      destruct (opt_str_eqb _ _); discriminate. }
  destruct Hsave as [s' Hsave]. exists s', (new_booking e b). split; [exact Hsave|].
  destruct (save_resolved e s s' b _ Hsave) as (_ & _ & _ & _ & Hv' & Hb').
  cbn [id createdAt roomId date time bookedBy duration new_booking].
  repeat split.
  - intros [H|H]; rewrite H; reflexivity.
  - intros n H Hn. rewrite H. unfold default_duration.
    replace (n =? 0) with false by (symmetry; apply Z.eqb_neq; exact Hn). reflexivity.
  - rewrite getBookings_stamped by exact Hv'. rewrite Hb'. cbn [snd].
    rewrite read_list_inv_wf. apply forallb_filter_id. apply forallb_forall.
    intros x Hx. apply in_app_or in Hx as [Hx|[<-|[]]].
    + apply (getBookings_valid e s x Hx).
    + unfold valid_at in *. rewrite <- Hval. reflexivity.
Qed.

(** C5: [validateBooking] reports the room error iff roomId <= 0, the date
    format error iff the date fails the 4-2-2 digit pattern, the time format
    error iff the time fails the 2-2 digit pattern, and the past-date error
    iff the parsed date is before local midnight today; all applicable
    errors are collected, and {roomId: 0, date: "", time: ""} gets exactly
    the room, date and time errors. *)
Theorem validate_reference (Hnan : parse_fallback "" = None) :
  (forall e b,
     ((In err_room (errors (validateBooking e b)) <-> roomId b <= 0) /\
      (In err_date (errors (validateBooking e b)) <-> re_date (date b) = false) /\
      (In err_time (errors (validateBooking e b)) <-> re_time (time b) = false) /\
      (In err_past (errors (validateBooking e b)) <->
         exists t, Date_parse (date b) = Some t /\ t < today_ms e)) /\
     (isValid (validateBooking e b) = true <-> errors (validateBooking e b) = [])) /\
  (forall e b, roomId b = 0 -> date b = "" -> time b = "" ->
     errors (validateBooking e b) = [err_room; err_date; err_time]).
Proof.
  split.
  - intros e b. split; [apply validate_in_iff|].
    rewrite validate_isValid. destruct (errors (validateBooking e b)); split; easy.
  - intros e b Hr Hd Ht. rewrite validate_errors. unfold is_past, Date_parse.
    rewrite Hr, Hd, Ht. cbn. rewrite Hnan. reflexivity.
Qed.

(** C6 (amended): the past-date check does not depend on the format check:
    a date failing the 4-2-2 pattern gets the format error, and also the
    past-date error exactly when [Date] still parses it to an instant
    before local midnight today. *)
Theorem past_check_independent_of_format (e : Env) (b : Booking)
  (Hbad : re_date (date b) = false) :
  In err_date (errors (validateBooking e b)) /\
  (In err_past (errors (validateBooking e b)) <->
     exists t, Date_parse (date b) = Some t /\ t < today_ms e).
Proof.
  destruct (validate_in_iff e b) as (_ & Hd & _ & Hp). split; [apply Hd; exact Hbad | exact Hp].
Qed.


(** C8 (amended): [deleteBooking] works on [getBookings] (the stored records
    that pass validation now): it fails with "Booking not found" iff none of
    them has the id; every failure leaves the stored collection unchanged;
    on success it writes the validated records without those of that id.
    After a successful save returning id [x], deleting [x] at the same time
    succeeds, the following [getBookings] has no record with id [x], and a
    second delete of [x] fails with "Booking not found". *)
Theorem delete_semantics (e : Env) :
  (forall s i,
     (snd (deleteBooking e s i) = Rejected msg_not_found <->
        ~ (exists b, In b (snd (getBookings e s)) /\ id b = Some i)) /\
     (forall m, snd (deleteBooking e s i) = Rejected m ->
        ls_bookings (fst (deleteBooking e s i)) = ls_bookings s) /\
     (snd (deleteBooking e s i) = Resolved true ->
        ls_bookings (fst (deleteBooking e s i)) =
        Some (SArray (map JObj (filter (fun b => negb (opt_str_eqb (id b) (Some i)))
                                       (snd (getBookings e s))))))) /\
  (forall s b s1 nb x, saveBooking e s b = (s1, Resolved nb) -> id nb = Some x ->
     snd (deleteBooking e s1 x) = Resolved true /\
     (forall b', In b' (snd (getBookings e (fst (deleteBooking e s1 x)))) -> id b' <> Some x) /\
     snd (deleteBooking e (fst (deleteBooking e s1 x)) x) = Rejected msg_not_found).
Proof.
  assert (Hchar : forall s i,
     (snd (deleteBooking e s i) = Rejected msg_not_found <->
        ~ (exists b, In b (snd (getBookings e s)) /\ id b = Some i)) /\
     (forall m, snd (deleteBooking e s i) = Rejected m ->
        ls_bookings (fst (deleteBooking e s i)) = ls_bookings s) /\
     (snd (deleteBooking e s i) = Resolved true ->
        ls_bookings (fst (deleteBooking e s i)) =
        Some (SArray (map JObj (filter (fun b => negb (opt_str_eqb (id b) (Some i)))
                                       (snd (getBookings e s))))))).
  { intros s i. destruct (delete_cases e s i) as [Hno Hyes]. cbv zeta in Hno, Hyes.
    pose proof (getBookings_bookings e s) as Hgb.
    assert (Hdec : (exists b, In b (snd (getBookings e s)) /\ id b = Some i) \/
                   ~ (exists b, In b (snd (getBookings e s)) /\ id b = Some i)).
    { destruct (existsb (fun b => opt_str_eqb (id b) (Some i)) (snd (getBookings e s))) eqn:E.
      - apply existsb_exists in E as (b0 & Hb0 & Hi). left. exists b0.
        split; [exact Hb0 | apply opt_str_eqb_some; exact Hi].
      - right. intros (b0 & Hb0 & Hi). apply opt_str_eqb_some in Hi.
        assert (Ht : existsb (fun b => opt_str_eqb (id b) (Some i)) (snd (getBookings e s)) = true)
          by (apply existsb_exists; eauto).
        congruence. }
    destruct Hdec as [Hex|Hex].
    - rewrite (Hyes Hex). unfold setBookings. destruct (env_full e); cbn [fst snd].
      + split; [split; [discriminate | intros H; contradiction]|].
        split; [intros; exact Hgb | discriminate].
      + split; [split; [discriminate | intros H; contradiction]|].
        split; [discriminate | reflexivity].
    - rewrite (Hno Hex). cbn [fst snd].
      split; [split; [intros _; exact Hex | reflexivity]|].
      split; [intros; exact Hgb | discriminate]. }
  split; [exact Hchar|].
  intros s b s1 nb x Hsave Hid.
  destruct (save_resolved e s s1 b nb Hsave) as (Hnb & Hval & Hwrite & _ & Hv1 & Hb1).
  set (bs := snd (getBookings e s)) in *.
  assert (Hlist1 : snd (getBookings e s1) = (bs ++ [nb])%list).
  { rewrite getBookings_stamped by exact Hv1. rewrite Hb1. cbn [snd].
    rewrite read_list_inv_wf. apply forallb_filter_id. apply forallb_forall.
    intros y Hy. apply in_app_or in Hy as [Hy|[<-|[]]].
    - apply (getBookings_valid e s y Hy).
    - rewrite Hnb. unfold valid_at in *. rewrite <- Hval. reflexivity. }
  assert (Hin : exists b0, In b0 (snd (getBookings e s1)) /\ id b0 = Some x).
  { exists nb. split; [rewrite Hlist1; apply in_or_app; right; left; reflexivity | exact Hid]. }
  destruct (delete_cases e s1 x) as [_ Hyes]. cbv zeta in Hyes.
  rewrite (Hyes Hin). rewrite (getBookings_stamped e s1 Hv1). cbn [fst snd].
  unfold setBookings. rewrite Hwrite. cbn [fst snd].
  set (s2 := mkLS (ls_version s1) _).
  assert (Hgone : forall b', In b' (snd (getBookings e s2)) -> id b' <> Some x).
  { intros b' Hb'. rewrite (getBookings_stamped e s2 Hv1) in Hb'. unfold s2 in Hb'. cbn [snd ls_bookings] in Hb'.
    rewrite read_list_inv_wf in Hb'. apply filter_In in Hb' as [Hb' _].
    apply filter_In in Hb' as [_ Hb']. intros Heq.
    apply (proj2 (opt_str_eqb_some (id b') x)) in Heq. rewrite Heq in Hb'. discriminate. }
  split; [reflexivity|]. split; [exact Hgone|].
  apply (proj1 (Hchar s2 x)). intros (b' & Hb' & Heq). exact (Hgone b' Hb' Heq).
Qed.

(** C9 (code defect): one [null] element in the stored array makes
    [getBookings] return no booking at all, although the other element is a
    well-formed booking that passes validation; without the [null] element
    that booking is returned. *)
Theorem null_record_empties_list :
  let good := mkBooking (Some "booking_1") 1 "2099-01-01" "09:00" (Some 60) None None in
  valid_at ex_env1 good = true /\
  snd (getBookings ex_env1 (mkLS (Some STORAGE_VERSION) (Some (SArray [JObj good; JOther])))) = [good] /\
  snd (getBookings ex_env1 (mkLS (Some STORAGE_VERSION) (Some (SArray [JObj good; JNull])))) = [].
Proof.
  cbv zeta. unfold valid_at, getBookings, validateBooking, Date_parse. vm_compute.
  repeat split; reflexivity.
Qed.

(** C10: a stored booking whose date is a calendar day before the current
    local day is omitted by [getBookings], and [isSlotAvailable] reports its
    slot free (for a truthy roomId and a non-empty time, which every saved
    booking has; and a time zone less than a day ahead of UTC). *)
Theorem past_bookings_vanish (e : Env) (s : LocalStorage) (l : list JElem)
  (b : Booking) (d : Z)
  (Htz : env_tz e < ms_per_day)
  (Hs : ls_bookings s = Some (SArray l)) (Hb : In (JObj b) l)
  (Hday : calendar_day (date b) = Some d) (Hpast : d < local_day e) :
  ~ In b (snd (getBookings e s)) /\
  (roomId b <> 0 -> time b <> "" ->
   snd (isSlotAvailable e s (roomId b) (date b) (time b)) = true).
Proof.
  assert (Hp : is_past e (date b) = true).
  { unfold calendar_day in Hday.
    destruct (iso_date_only (date b)) as [[t|]|] eqn:Hiso; try discriminate.
    injection Hday as Hd. destruct (iso_date_only_mult _ _ Hiso) as (k & ->).
    rewrite Z.div_mul in Hd by (unfold ms_per_day; lia). subst k.
    unfold is_past, Date_parse. rewrite Hiso. apply Z.ltb_lt.
    unfold today_ms. unfold local_day in Hpast. unfold ms_per_day in *. nia. }
  split.
  - intros Hin. apply getBookings_valid, valid_at_iff in Hin. destruct Hin as (_ & _ & _ & H).
    congruence.
  - intros Hr Ht. rewrite isSlotAvailable_eq.
    replace (roomId b =? 0) with false by (symmetry; apply Z.eqb_neq; exact Hr).
    replace (str_falsy (time b)) with false by (destruct (time b); [contradiction | reflexivity]).
    replace (str_falsy (date b)) with false.
    2:{ unfold calendar_day, iso_date_only in Hday. destruct (date b); [discriminate | reflexivity]. }
    cbn [orb snd].
    destruct (existsb _ _) eqn:E; [|reflexivity].
    apply existsb_exists in E as (x & Hx & Hsame).
    unfold same_slot in Hsame. apply andb_prop in Hsame as [Hsame _].
    apply andb_prop in Hsame as [_ Hxd]. apply String.eqb_eq in Hxd.
    apply getBookings_valid, valid_at_iff in Hx. destruct Hx as (_ & _ & _ & Hx).
    rewrite Hxd in Hx. congruence.
Qed.

(** ** Further properties of the service and of its callers *)

Lemma getBookings_fst (e : Env) (s : LocalStorage) :
  fst (getBookings e s) = s \/
  fst (getBookings e s) = mkLS (Some STORAGE_VERSION) (ls_bookings s).
Proof.
  rewrite getBookings_eq. unfold initializeStorage, setVersion.
  destruct (opt_str_eqb _ _); [left; reflexivity|].
  destruct (env_full e); [left | right]; reflexivity.
Qed.

Lemma getBookings_twice (e : Env) (s : LocalStorage) :
  getBookings e (fst (getBookings e s)) = getBookings e s.
Proof.
  rewrite (getBookings_eq e s). destruct (initializeStorage e s) as [s1|] eqn:Hi; cbn [fst].
  - destruct (init_some e s s1 Hi) as [Hb Hv].
    rewrite getBookings_stamped by exact Hv. rewrite Hb. reflexivity.
  - rewrite getBookings_eq, Hi. reflexivity.
Qed.

Lemma roomDate_eq (e : Env) (s : LocalStorage) (r : Z) (d : string) :
  getBookingsForRoomAndDate e s r d =
  (fst (getBookings e s),
   filter (fun b => (roomId b =? r) && String.eqb (date b) d) (snd (getBookings e s))).
Proof. unfold getBookingsForRoomAndDate. destruct (getBookings e s); reflexivity. Qed.

Lemma booked_times_same_slot (r : Z) (d v : string) (bs : list Booking) :
  existsb (String.eqb v)
    (map time (filter (fun b => (roomId b =? r) && String.eqb (date b) d) bs)) =
  existsb (same_slot r d v) bs.
Proof.
  induction bs as [|b bs IH]; [reflexivity|].
  cbn [filter existsb]. unfold same_slot at 1.
  destruct ((roomId b =? r) && String.eqb (date b) d); cbn [map existsb andb];
    rewrite IH; [rewrite String.eqb_sym; reflexivity | reflexivity].
Qed.

Lemma save_conflict_free (e : Env) (s : LocalStorage) (b : Booking) :
  snd (saveBooking e s b) = Rejected msg_conflict ->
  existsb (same_slot (roomId b) (date b) (time b)) (snd (getBookings e s)) = true.
Proof.
  rewrite saveBooking_eq, getBookings_eq.
  destruct (initializeStorage e s) as [s1|]; cbn [snd];
    [|injection 1; unfold msg_failed_save, msg_conflict; discriminate].
  destruct (negb (valid_at e b)); cbn [snd].
  { injection 1. unfold msg_conflict. cbn. discriminate. }
  destruct (existsb _ _); [reflexivity|].
  destruct (setBookings _ _ _); cbn [snd]; [discriminate|].
  injection 1. unfold msg_failed_save, msg_conflict. discriminate.
Qed.

Lemma is_past_day (e : Env) (s : string) (d : Z) :
  calendar_day s = Some d ->
  is_past e s = (d * ms_per_day <? today_ms e) /\ str_falsy s = false.
Proof.
  unfold calendar_day. destruct (iso_date_only s) as [[t|]|] eqn:Hiso; try discriminate.
  injection 1 as Hd. destruct (iso_date_only_mult _ _ Hiso) as (k & ->).
  rewrite Z.div_mul in Hd by (unfold ms_per_day; lia). subst k.
  unfold is_past, Date_parse. rewrite Hiso. split; [reflexivity|].
  unfold iso_date_only in Hiso. destruct s; [discriminate | reflexivity].
Qed.

Lemma digit_char (n : Z) :
  0 <= n ->
  is_digit (ascii_of_nat (Z.to_nat (48 + n mod 10))) = true /\
  digit_val (ascii_of_nat (Z.to_nat (48 + n mod 10))) = n mod 10.
Proof.
  intros Hn. assert (Hm : 0 <= n mod 10 < 10) by (apply Z.mod_pos_bound; lia).
  destruct (n mod 10) as [|p|p]; [split; reflexivity | | lia].
  assert (Hp : Z.pos p = 1 \/ Z.pos p = 2 \/ Z.pos p = 3 \/ Z.pos p = 4 \/ Z.pos p = 5 \/
               Z.pos p = 6 \/ Z.pos p = 7 \/ Z.pos p = 8 \/ Z.pos p = 9) by lia.
  repeat destruct Hp as [Hp|Hp]; rewrite Hp; split; reflexivity.
Qed.

Lemma dec_value_from_spec (v : Z) (s : string) :
  dec_value_from v s = v * 10 ^ Z.of_nat (String.length s) + dec_value_from 0 s.
Proof.
  revert v. induction s as [|c s IH]; intros v; cbn [dec_value_from String.length].
  - lia.
  - rewrite (IH (v * 10 + digit_val c)), (IH (0 * 10 + digit_val c)).
    rewrite Nat2Z.inj_succ, Z.pow_succ_r by lia. ring.
Qed.

Lemma digits_fuel_spec (f : nat) (n : Z) (acc : string) :
  0 <= n < 10 ^ Z.of_nat f ->
  all_digits (digits_fuel f n acc) = all_digits acc /\
  dec_value_from 0 (digits_fuel f n acc) =
    n * 10 ^ Z.of_nat (String.length acc) + dec_value_from 0 acc.
Proof.
  revert n acc. induction f as [|f IH]; intros n acc Hn; cbn [digits_fuel].
  - cbn in Hn. split; [reflexivity | replace n with 0 by lia; lia].
  - destruct (digit_char n (proj1 Hn)) as [Hdig Hval].
    assert (Hdm := Z.div_mod n 10 ltac:(lia)).
    destruct (Z.ltb_spec n 10) as [Hlt|Hge].
    + cbn [all_digits dec_value_from]. rewrite Hdig. split; [reflexivity|].
      rewrite dec_value_from_spec, Hval, Z.mod_small by lia. lia.
    + rewrite Nat2Z.inj_succ, Z.pow_succ_r in Hn by lia.
      destruct (IH (n / 10) (String (ascii_of_nat (Z.to_nat (48 + n mod 10))) acc))
        as [IHd IHv].
      { split; [apply Z.div_pos; lia | apply Z.div_lt_upper_bound; lia]. }
      rewrite IHd, IHv. cbn [all_digits dec_value_from String.length].
      rewrite Hdig. split; [reflexivity|].
      rewrite (dec_value_from_spec (0 * 10 + _)), Hval, Nat2Z.inj_succ, Z.pow_succ_r by lia.
      rewrite Hdm at 3. ring.
Qed.

Lemma Z_to_decimal_spec (n : Z) :
  0 <= n < 10 ^ 40 ->
  all_digits (Z_to_decimal n) = true /\ dec_value_from 0 (Z_to_decimal n) = n.
Proof.
  intros Hn. unfold Z_to_decimal. destruct (digits_fuel_spec 40 n "" Hn) as [H1 H2].
  rewrite H1, H2. cbn. split; [reflexivity | ring].
Qed.

Lemma append_cancel_l (p x y : string) : (p ++ x)%string = (p ++ y)%string -> x = y.
Proof. induction p as [|c p IH]; cbn; [auto | injection 1; auto]. Qed.

Lemma split_at_underscore (a1 a2 r1 r2 : string) :
  all_digits a1 = true -> all_digits a2 = true ->
  (a1 ++ String "_" r1)%string = (a2 ++ String "_" r2)%string -> a1 = a2 /\ r1 = r2.
Proof.
  revert a2. induction a1 as [|c1 a1 IH]; intros [|c2 a2] H1 H2; cbn.
  - injection 1. auto.
  - injection 1 as Hc _. subst c2. discriminate H2.
  - injection 1 as Hc _. subst c1. discriminate H1.
  - injection 1 as -> Heq. cbn in H1, H2.
    apply andb_prop in H1 as [_ H1]. apply andb_prop in H2 as [_ H2].
    destruct (IH a2 H1 H2 Heq) as [-> ->]. auto.
Qed.

Lemma valid_new_booking (e : Env) (b : Booking) :
  valid_at e (new_booking e b) = valid_at e b.
Proof. unfold valid_at. rewrite (validate_fields e (new_booking e b) b); reflexivity. Qed.

(** X1: the read operations [getBookings], [isSlotAvailable] and
    [getBookingsForRoomAndDate] never write the bookings key: they leave
    storage unchanged or only stamp the version key with "1.0". *)
Theorem reads_only_stamp_version (e : Env) (s : LocalStorage) (r : Z) (d t : string) :
  let stamped := mkLS (Some STORAGE_VERSION) (ls_bookings s) in
  (fst (getBookings e s) = s \/ fst (getBookings e s) = stamped) /\
  (fst (isSlotAvailable e s r d t) = s \/ fst (isSlotAvailable e s r d t) = stamped) /\
  (fst (getBookingsForRoomAndDate e s r d) = s \/
   fst (getBookingsForRoomAndDate e s r d) = stamped).
Proof.
  cbv zeta. split; [|split].
  - apply getBookings_fst.
  - rewrite isSlotAvailable_eq. destruct (_ || _ || _); [left; reflexivity|].
    apply getBookings_fst.
  - rewrite roomDate_eq. apply getBookings_fst.
Qed.

(** X2: [initializeStorage] fails only when the version key is not "1.0"
    and the write is refused; once it succeeds, the bookings key is
    untouched and every later call (whatever the environment, even a full
    medium) succeeds without writing anything. *)
Theorem initializeStorage_idempotent (e : Env) (s : LocalStorage) :
  (initializeStorage e s = None <->
     ls_version s <> Some STORAGE_VERSION /\ env_full e = true) /\
  (forall s1, initializeStorage e s = Some s1 ->
     ls_bookings s1 = ls_bookings s /\ forall e', initializeStorage e' s1 = Some s1).
Proof.
  split.
  - unfold initializeStorage, setVersion.
    destruct (opt_str_eqb (ls_version s) (Some STORAGE_VERSION)) eqn:H.
    + apply opt_str_eqb_some in H. split; [discriminate | intros [Hn _]; contradiction].
    + split.
      * destruct (env_full e); [|discriminate]. intros _. split; [|reflexivity].
        intros Hv. apply opt_str_eqb_some in Hv. congruence.
      * intros [_ ->]. reflexivity.
  - intros s1 Hi. destruct (init_some e s s1 Hi) as [Hb Hv].
    split; [exact Hb|]. intros e'. apply init_stamped. exact Hv.
Qed.

(** X3: after [clearAllBookings] the version key is kept, [getBookings]
    returns nothing, every slot with truthy arguments is available, and
    every delete fails with "Booking not found". *)
Theorem clear_empties_store (e : Env) (s : LocalStorage) :
  ls_version (clearAllBookings s) = ls_version s /\
  snd (getBookings e (clearAllBookings s)) = [] /\
  (forall r d t, r <> 0 -> d <> "" -> t <> "" ->
     snd (isSlotAvailable e (clearAllBookings s) r d t) = true) /\
  (forall i, snd (deleteBooking e (clearAllBookings s) i) = Rejected msg_not_found).
Proof.
  assert (Hnil : snd (getBookings e (clearAllBookings s)) = []).
  { rewrite getBookings_eq. destruct (initializeStorage _ _); reflexivity. }
  split; [reflexivity|]. split; [exact Hnil|]. split.
  - intros r d t Hr Hd Ht. rewrite isSlotAvailable_eq.
    replace (r =? 0) with false by (symmetry; apply Z.eqb_neq; exact Hr).
    replace (str_falsy d) with false by (symmetry; destruct d; [contradiction | reflexivity]).
    replace (str_falsy t) with false by (symmetry; destruct t; [contradiction | reflexivity]).
    cbn [orb snd]. rewrite Hnil. reflexivity.
  - intros i. unfold deleteBooking.
    destruct (getBookings e (clearAllBookings s)) as [s1 bs]. cbn in Hnil. subst bs.
    reflexivity.
Qed.

(** X4: in every store reached from empty storage, the bookings
    [getBookingsForRoomAndDate] returns all have that room and date, pass
    validation now, and have pairwise distinct times (so the set of booked
    times the form builds has one entry per booking). *)
Theorem room_date_distinct_times (s : LocalStorage) (Hreach : reachable s)
  (e : Env) (r : Z) (d : string) :
  NoDup (map time (snd (getBookingsForRoomAndDate e s r d))) /\
  Forall (fun b => roomId b = r /\ date b = d /\ valid_at e b = true)
    (snd (getBookingsForRoomAndDate e s r d)).
Proof.
  destruct (inv_getBookings e s (reachable_inv s Hreach)) as (l & Hl & _ & Hnd).
  rewrite roomDate_eq. cbn [snd]. rewrite Hl.
  set (p := fun b => (roomId b =? r) && String.eqb (date b) d).
  assert (Hall : Forall (fun b => roomId b = r /\ date b = d /\ valid_at e b = true)
                   (filter p (filter (valid_at e) l))).
  { apply Forall_forall. intros b Hb. apply filter_In in Hb as [Hb Hp].
    apply filter_In in Hb as [_ Hv]. unfold p in Hp.
    apply andb_prop in Hp as [H1 H2]. apply Z.eqb_eq in H1. apply String.eqb_eq in H2.
    auto. }
  split; [|exact Hall].
  assert (Hnd' := NoDup_triples_filter p _ (NoDup_triples_filter (valid_at e) l Hnd)).
  revert Hall Hnd'. generalize (filter p (filter (valid_at e) l)) as bs.
  induction bs as [|b bs IH]; intros Hall Hnd'; [constructor|].
  inversion Hall as [|? ? [Hr [Hd _]] Hall']; subst.
  cbn in Hnd'. apply NoDup_cons_iff in Hnd' as [Hx Hnd'].
  cbn. constructor; [|exact (IH Hall' Hnd')].
  intros Hin. apply Hx. apply in_map_iff in Hin as (y & Hy & Hyin).
  rewrite Forall_forall in Hall'. destruct (Hall' y Hyin) as (Hry & Hdy & _).
  apply in_map_iff. exists y. split; [|exact Hyin].
  unfold triple. congruence.
Qed.

(** X5: with a room and a date selected, [updateAvailableTimeSlots]
    disables exactly the non-empty time options whose slot
    [isSlotAvailable] reports taken (and leaves the placeholder alone),
    clears a selected time exactly when its slot is taken, and changes
    storage as one [getBookings] call does. *)
Theorem time_slots_follow_availability (e : Env) (s : LocalStorage) (r : Z) (d : string)
  (sel : option string) (opts : list string) (Hr : r <> 0) (Hd : d <> "") :
  updateAvailableTimeSlots e s (Some r) (Some d) sel opts =
  (fst (getBookings e s),
   Some (map (fun v => (v, if str_falsy v then None
                           else Some (negb (snd (isSlotAvailable e s r d v))))) opts,
         match sel with
         | Some t => if str_falsy t || snd (isSlotAvailable e s r d t) then Some t else None
         | None => None
         end)).
Proof.
  assert (Hr' : (r =? 0) = false) by (apply Z.eqb_neq; exact Hr).
  assert (Hd' : str_falsy d = false) by (destruct d; [contradiction | reflexivity]).
  assert (Havail : forall v, str_falsy v = false ->
            negb (snd (isSlotAvailable e s r d v)) = existsb (same_slot r d v) (snd (getBookings e s))).
  { intros v Hv. rewrite isSlotAvailable_eq, Hr', Hd', Hv. cbn [orb snd].
    apply negb_involutive. }
  unfold updateAvailableTimeSlots. rewrite Hr', Hd'. cbn [orb].
  rewrite roomDate_eq. f_equal. f_equal. f_equal.
  - apply map_ext. intros v. destruct (str_falsy v) eqn:Hv; [reflexivity|].
    rewrite Havail by exact Hv. rewrite booked_times_same_slot. reflexivity.
  - destruct sel as [t|]; [|reflexivity].
    destruct (str_falsy t) eqn:Ht; [reflexivity|]. cbn [negb andb orb].
    rewrite booked_times_same_slot, <- (Havail t Ht).
    destruct (snd (isSlotAvailable e s r d t)); reflexivity.
Qed.

(** X6: a successful save or delete rewrites the bookings key as an array
    of records that all pass validation at that moment (records that have
    become invalid, e.g. past ones, are dropped for good); after a save the
    array holds the new booking, after a delete no record with the id. *)
Theorem writes_store_only_valid (e : Env) (s : LocalStorage) :
  (forall b s' nb, saveBooking e s b = (s', Resolved nb) ->
     exists l, ls_bookings s' = Some (SArray (map JObj l)) /\ In nb l /\
               Forall (fun x => valid_at e x = true) l) /\
  (forall i s', deleteBooking e s i = (s', Resolved true) ->
     exists l, ls_bookings s' = Some (SArray (map JObj l)) /\
               Forall (fun x => valid_at e x = true /\ id x <> Some i) l).
Proof.
  assert (Hvalid := getBookings_valid e s). split.
  - intros b s' nb Hs. destruct (save_resolved e s s' b nb Hs) as (Hnb & Hval & _ & _ & _ & Hb).
    eexists. split; [exact Hb|]. split; [apply in_or_app; right; left; reflexivity|].
    apply Forall_app. split.
    + apply Forall_forall. exact Hvalid.
    + constructor; [|constructor]. rewrite Hnb, valid_new_booking. exact Hval.
  - intros i s' Hdel. unfold deleteBooking in Hdel.
    destruct (getBookings e s) as [s1 bs]. cbn in Hvalid.
    destruct (_ =? _)%nat; [discriminate|].
    unfold setBookings in Hdel. destruct (env_full e); [discriminate|].
    injection Hdel as <-. eexists. split; [reflexivity|].
    apply Forall_forall. intros x Hx. apply filter_In in Hx as [Hx Hid].
    split; [exact (Hvalid x Hx)|]. intros Hxi.
    apply (proj2 (opt_str_eqb_some (id x) i)) in Hxi. rewrite Hxi in Hid. discriminate.
Qed.

(** X7: a date-only string is read as UTC midnight, so a booking for the
    current local calendar day is reported as past, by [validateBooking]
    and by the form's [validateBookingInput] alike, exactly when the local
    time zone is behind UTC. *)
Theorem today_past_iff_west_of_utc (e : Env) (b : Booking)
  (Hday : calendar_day (date b) = Some (local_day e)) :
  (In err_past (errors (validateBooking e b)) <-> env_tz e < 0) /\
  (forall r t, In in_past (errors (validateBookingInput e r (date b) t)) <-> env_tz e < 0).
Proof.
  destruct (is_past_day e _ _ Hday) as [Hp Hf].
  assert (Hpast : is_past e (date b) = true <-> env_tz e < 0).
  { rewrite Hp, Z.ltb_lt. unfold today_ms, local_day. lia. }
  split.
  - rewrite validate_errors. rewrite <- Hpast.
    destruct (is_past e (date b)).
    + split; [intros _; reflexivity|]. intros _. apply in_or_app. right.
      apply in_or_app. right. apply in_or_app. right. left. reflexivity.
    + split; [|discriminate]. intros Hin.
      repeat (apply in_app_or in Hin; destruct Hin as [Hin|Hin]);
        repeat match type of Hin with context [if ?c then _ else _] => destruct c end;
        cbn in Hin; repeat destruct Hin as [Hin|Hin]; try discriminate Hin; contradiction.
  - intros r t. rewrite validateBookingInput_errors, Hf, <- Hpast.
    destruct (is_past e (date b)).
    + split; [intros _; reflexivity|]. intros _. apply in_or_app. right.
      apply in_or_app. left. left. reflexivity.
    + split; [|discriminate]. intros Hin.
      repeat (apply in_app_or in Hin; destruct Hin as [Hin|Hin]);
        repeat match type of Hin with context [if ?c then _ else _] => destruct c end;
        cbn in Hin; repeat destruct Hin as [Hin|Hin]; try discriminate Hin; contradiction.
Qed.

(** X8: a [YYYY-MM-DD] string whose month is outside 1..12 or whose day is
    outside 1..31 parses to NaN and is never reported as past: a booking
    with such a date passes [validateBooking] at any time iff its room id is
    positive and its time well formed, and the form never shows the
    past-date error for it. *)
Theorem out_of_range_date_never_past (e : Env) (b : Booking) (y m dd : Z)
  (Hf : ymd_fields (date b) = Some (y, m, dd))
  (Hbad : ~ (1 <= m <= 12 /\ 1 <= dd <= 31)) :
  Date_parse (date b) = None /\
  valid_at e b = (0 <? roomId b) && re_time (time b) /\
  (forall r t, ~ In in_past (errors (validateBookingInput e r (date b) t))).
Proof.
  assert (Hdp : Date_parse (date b) = None /\ re_date (date b) = true).
  { unfold ymd_fields in Hf. unfold Date_parse, iso_date_only.
    destruct (date b) as [|a1 [|a2 [|a3 [|a4 [|a5 [|a6 [|a7 [|a8 [|a9 [|a10 [|a11 s0]]]]]]]]]]];
      try discriminate.
    destruct (re_date _) eqn:Hre; [|discriminate].
    injection Hf as Hy Hm Hdd. split; [|reflexivity].
    unfold make_date. rewrite Hm, Hdd.
    destruct (Z.leb_spec 1 m), (Z.leb_spec m 12), (Z.leb_spec 1 dd), (Z.leb_spec dd 31);
      try reflexivity; exfalso; lia. }
  destruct Hdp as [Hdp Hre].
  assert (Hnp : is_past e (date b) = false) by (unfold is_past; rewrite Hdp; reflexivity).
  split; [exact Hdp|]. split.
  - destruct (valid_at e b) eqn:Hv.
    + apply valid_at_iff in Hv as (Hr & _ & Ht & _). rewrite Ht.
      symmetry. apply andb_true_intro. split; [apply Z.ltb_lt; exact Hr | reflexivity].
    + symmetry. apply not_true_iff_false. intros Hc. apply andb_prop in Hc as [Hr Ht].
      apply Z.ltb_lt in Hr. rewrite <- not_true_iff_false in Hv. apply Hv.
      apply valid_at_iff. auto.
  - intros r t Hin. rewrite validateBookingInput_errors, Hnp in Hin.
    repeat (apply in_app_or in Hin; destruct Hin as [Hin|Hin]);
      repeat match type of Hin with context [if ?c then _ else _] => destruct c end;
      cbn in Hin; repeat destruct Hin as [Hin|Hin]; try discriminate Hin; contradiction.
Qed.

(** X9: the form's check accepts exactly a non-zero, non-NaN room id, a
    non-empty date that is not past and a non-empty time (no format check,
    a negative room id passes); every booking [validateBooking] accepts
    passes it. *)
Theorem client_validation_weaker (e : Env) :
  (forall r d t, isValid (validateBookingInput e r d t) = true <->
     (exists n, r = Some n /\ n <> 0) /\ d <> "" /\ is_past e d = false /\ t <> "") /\
  (forall b, valid_at e b = true ->
     isValid (validateBookingInput e (Some (roomId b)) (date b) (time b)) = true).
Proof.
  pose proof (validateBookingInput_valid_iff e) as Hchar.
  split; [exact Hchar|].
  intros b Hv. apply Hchar. apply valid_at_iff in Hv as (Hr & Hd & Ht & Hp).
  split; [exists (roomId b); split; [reflexivity | lia]|].
  split; [intros Hc; rewrite Hc in Hd; discriminate|].
  split; [exact Hp|]. intros Hc. rewrite Hc in Ht. discriminate.
Qed.

(** X10: in a form submission the availability double-check runs on the
    same storage just before [saveBooking], so [saveBooking]'s
    "Selected time slot is no longer available" rejection is never shown; a
    taken slot (one [getBookings] returns a booking for) of an input that
    passes the form's check is reported with the form's own message
    "La sala è già prenotata per questo orario". *)
Theorem submission_never_save_conflict (e : Env) (s : LocalStorage) (app : list Booking)
  (r : option Z) (d t : string) :
  match handleBookingSubmission e s app r d t with
  | (_, _, Rejected m) => m <> msg_conflict
  | (_, _, Resolved _) => True
  end /\
  (forall n, r = Some n -> isValid (validateBookingInput e r d t) = true ->
     existsb (same_slot n d t) (snd (getBookings e s)) = true ->
     snd (handleBookingSubmission e s app r d t) = Rejected msg_taken).
Proof.
  split.
  2:{ intros n -> Hv Htaken.
      pose proof (proj1 (validateBookingInput_valid_iff e (Some n) d t) Hv)
        as ((n' & Hn & Hn0) & Hd & _ & Ht).
      injection Hn as <-.
      unfold handleBookingSubmission. rewrite Hv, isSlotAvailable_eq.
      replace (n =? 0) with false by (symmetry; apply Z.eqb_neq; exact Hn0).
      replace (str_falsy d) with false by (symmetry; destruct d; [contradiction | reflexivity]).
      replace (str_falsy t) with false by (symmetry; destruct t; [contradiction | reflexivity]).
      cbn [orb]. rewrite Htaken. reflexivity. }
  unfold handleBookingSubmission.
  destruct (isValid (validateBookingInput e r d t)) eqn:Hv; destruct r as [n|];
    [| | |];
    try (rewrite validateBookingInput_errors;
         repeat match goal with |- context [if ?c then _ else _] => destruct c end;
         cbn; unfold msg_conflict, in_room, in_date, in_past, in_time; discriminate).
  destruct (isSlotAvailable e s n d t) as [s1 av] eqn:Ha.
  destruct av; cbn [negb]; [|unfold msg_taken, msg_conflict; discriminate].
  destruct (saveBooking e s1 _) as [s2 [nb|m]] eqn:Hs; [exact I|].
  intros ->. pose proof (save_conflict_free e s1 _ (f_equal snd Hs)) as Hc.
  cbn [roomId date time] in Hc.
  rewrite isSlotAvailable_eq in Ha.
  destruct ((n =? 0) || str_falsy d || str_falsy t); [discriminate|].
  injection Ha as Hs1 Hfree. subst s1. rewrite getBookings_twice in Hc.
  rewrite Hc in Hfree. discriminate.
Qed.

(** X11: a rejected form submission leaves the stored bookings and the
    in-memory list unchanged; a successful one stores and appends the
    submitted room, date and time with a generated id, duration 60 and no
    owner, after the bookings [getBookings] returned. *)
Theorem submission_effects (e : Env) (s : LocalStorage) (app : list Booking)
  (r : option Z) (d t : string) :
  match handleBookingSubmission e s app r d t with
  | (s', app', Rejected _) => ls_bookings s' = ls_bookings s /\ app' = app
  | (s', app', Resolved nb) =>
      r = Some (roomId nb) /\ date nb = d /\ time nb = t /\
      id nb = Some (generateBookingId e) /\ duration nb = Some 60 /\ bookedBy nb = None /\
      app' = (app ++ [nb])%list /\
      ls_bookings s' = Some (SArray (map JObj (snd (getBookings e s) ++ [nb])%list))
  end.
Proof.
  unfold handleBookingSubmission.
  destruct (isValid (validateBookingInput e r d t)); destruct r as [n|];
    try (split; reflexivity).
  destruct (isSlotAvailable e s n d t) as [s1 av] eqn:Ha.
  assert (Hs1 : ls_bookings s1 = ls_bookings s /\
                (av = true -> s1 = fst (getBookings e s))).
  { rewrite isSlotAvailable_eq in Ha.
    destruct ((n =? 0) || str_falsy d || str_falsy t); injection Ha as <- <-.
    - split; [reflexivity | discriminate].
    - split; [apply getBookings_bookings | reflexivity]. }
  destruct Hs1 as [Hb1 Hfst].
  destruct av; cbn [negb]; [|split; [exact Hb1 | reflexivity]].
  destruct (saveBooking e s1 _) as [s2 [nb|m]] eqn:Hs.
  - destruct (save_resolved e s1 s2 _ nb Hs) as (-> & _ & _ & _ & _ & Hb).
    rewrite (Hfst eq_refl), getBookings_twice in Hb.
    cbn. repeat split; auto.
  - split; [|reflexivity]. rewrite (save_rejected e s1 s2 _ m Hs). exact Hb1.
Qed.

(** X12: a booking id determines the instant and the random part it was
    generated from: ids generated at different milliseconds (or with
    different random parts) differ. *)
Theorem generateBookingId_injective (e1 e2 : Env)
  (H1 : 0 <= env_now e1 < 10 ^ 40) (H2 : 0 <= env_now e2 < 10 ^ 40) :
  generateBookingId e1 = generateBookingId e2 <->
  env_now e1 = env_now e2 /\ env_rand e1 = env_rand e2.
Proof.
  split.
  - unfold generateBookingId. intros H. apply append_cancel_l in H.
    destruct (Z_to_decimal_spec _ H1) as [Hd1 Hv1].
    destruct (Z_to_decimal_spec _ H2) as [Hd2 Hv2].
    destruct (split_at_underscore _ _ _ _ Hd1 Hd2 H) as [Hn Hr].
    split; [|exact Hr]. rewrite <- Hv1, <- Hv2, Hn. reflexivity.
  - intros [Hn Hr]. unfold generateBookingId. rewrite Hn, Hr. reflexivity.
Qed.

(** X13: after a successful save, the per-room-and-date listing at that
    moment is the earlier listing followed by the new booking for the saved
    room and date, and unchanged for every other room or date. *)
Theorem save_then_room_date (e : Env) (s s' : LocalStorage) (b nb : Booking)
  (Hs : saveBooking e s b = (s', Resolved nb)) :
  forall r d,
  snd (getBookingsForRoomAndDate e s' r d) =
  (snd (getBookingsForRoomAndDate e s r d) ++
   (if (roomId b =? r) && String.eqb (date b) d then [nb] else []))%list.
Proof.
  intros r d. destruct (save_resolved e s s' b nb Hs) as (Hnb & Hval & _ & _ & Hv' & Hb').
  rewrite !roomDate_eq. cbn [snd].
  rewrite getBookings_stamped by exact Hv'. rewrite Hb', read_list_inv_wf.
  rewrite (forallb_filter_id (valid_at e)).
  - cbn [snd]. rewrite filter_app. f_equal. rewrite Hnb. cbn. reflexivity.
  - apply forallb_forall. intros x Hx. apply in_app_or in Hx as [Hx|[<-|[]]].
    + exact (getBookings_valid e s x Hx).
    + rewrite Hnb, valid_new_booking. exact Hval.
Qed.

End BookingService.
(** ** Concrete runs *)

(** The store after saving [ex_booking] on 2024-06-15 from empty storage. *)
Local Abbreviation ex_store1 := (fst (saveBooking no_fallback ex_env1 empty_storage ex_booking)).

Lemma ex_store1_reachable : reachable no_fallback ex_store1.
Proof. eapply reachable_step; [apply reachable_empty | apply step_save]. Qed.

(** The store after also saving [ex_booking2]. *)
Local Abbreviation ex_store2 := (fst (saveBooking no_fallback ex_env1 ex_store1 ex_booking2)).

Lemma ex_store2_reachable : reachable no_fallback ex_store2.
Proof. eapply reachable_step; [exact ex_store1_reachable | apply step_save]. Qed.

Lemma ex_store1_bookings :
  ls_bookings ex_store1 = Some (SArray [JObj (new_booking ex_env1 ex_booking)]).
Proof. vm_compute. reflexivity. Qed.

(** C1 witness: ten days later, saving the same slot again is refused with
    the past-date error and stores nothing. *)
Lemma slot_uniqueness_witness :
  ls_bookings (fst (saveBooking no_fallback ex_env2 ex_store1 ex_booking)) = ls_bookings ex_store1 /\
  snd (saveBooking no_fallback ex_env2 ex_store1 ex_booking) =
    Rejected ("Validation failed: " ++ err_past).
Proof.
  pose proof (proj2 (slot_uniqueness no_fallback ex_store1 ex_store1_reachable)
                ex_env2 ex_booking _ (new_booking ex_env1 ex_booking)
                ex_store1_bookings (or_introl eq_refl) eq_refl) as [H1 H2].
  split; [exact H1|]. rewrite H2. vm_compute. reflexivity.
Defined.

(** C1 counterexample: the slot of [ex_booking] is stored, yet saving it
    again on 2024-06-25 is not refused with a slot conflict. *)
Lemma slot_conflict_counterexample :
  In (JObj (new_booking ex_env1 ex_booking))
     (match ls_bookings ex_store1 with Some (SArray l) => l | _ => [] end) /\
  triple (new_booking ex_env1 ex_booking) = triple ex_booking /\
  snd (saveBooking no_fallback ex_env2 ex_store1 ex_booking) =
    Rejected "Validation failed: Cannot book dates in the past" /\
  snd (saveBooking no_fallback ex_env2 ex_store1 ex_booking) <> Rejected msg_conflict.
Proof.
  vm_compute. split; [left; reflexivity|]. split; [reflexivity|].
  split; [reflexivity | discriminate].
Qed.

(** C2 witness: a stored collection holding a valid booking for room 1 on
    2024-06-20 at 09:00 and a [null] element reports that slot available;
    without the [null] element it reports it taken. *)
Lemma read_error_reports_available_witness :
  snd (isSlotAvailable no_fallback ex_env1
         (mkLS (Some STORAGE_VERSION)
               (Some (SArray [JObj (new_booking ex_env1 ex_booking); JNull])))
         1 "2024-06-20" "09:00") = true /\
  snd (isSlotAvailable no_fallback ex_env1
         (mkLS (Some STORAGE_VERSION) (Some (SArray [JObj (new_booking ex_env1 ex_booking)])))
         1 "2024-06-20" "09:00") = false.
Proof.
  split.
  - apply (proj1 (proj2 (read_error_reports_available no_fallback ex_env1 1 "2024-06-20" "09:00"
                           ltac:(discriminate) ltac:(discriminate) ltac:(discriminate)))).
    right. left. reflexivity.
  - vm_compute. reflexivity.
Defined.

(** C4 counterexample: a candidate with duration 0 is saved with duration 60. *)
Lemma zero_duration_counterexample :
  match snd (saveBooking no_fallback ex_env1 empty_storage
               (mkBooking None 1 "2024-06-20" "09:00" (Some 0) None None)) with
  | Resolved nb => duration nb = Some 60
  | Rejected _ => False
  end.
Proof. vm_compute. reflexivity. Qed.

(** C4 witness: saving [ex_booking] on 2024-06-15 from empty storage. *)
Lemma save_roundtrip_witness :
  exists s' nb, saveBooking no_fallback ex_env1 empty_storage ex_booking = (s', Resolved nb) /\
    duration nb = Some 60 /\
    snd (getBookings no_fallback ex_env1 s') = [nb].
Proof.
  destruct (save_roundtrip no_fallback ex_env1 empty_storage ex_booking
              eq_refl eq_refl eq_refl)
    as (s' & nb & Hs & _ & _ & _ & _ & _ & _ & Hdur & _ & Hl).
  exists s', nb. split; [exact Hs|]. split.
  - apply Hdur. left. reflexivity.
  - rewrite Hl. reflexivity.
Defined.

(** C5 witness: {roomId: 0, date: "", time: ""} on an engine whose
    [Date.parse("")] is NaN. *)
Lemma validate_reference_witness :
  no_fallback "" = None /\
  errors (validateBooking no_fallback ex_env1 (mkBooking None 0 "" "" None None None)) =
    [err_room; err_date; err_time].
Proof.
  split; [reflexivity|].
  exact (proj2 (validate_reference no_fallback eq_refl) ex_env1
           (mkBooking None 0 "" "" None None None) eq_refl eq_refl eq_refl).
Defined.

(** C6 counterexample: the date "2020" fails the 4-2-2 pattern and still
    gets the past-date error. *)
Lemma malformed_past_date_counterexample :
  errors (validateBooking no_fallback ex_env1 (mkBooking None 1 "2020" "09:00" None None None)) =
    [err_date; err_past].
Proof. vm_compute. reflexivity. Qed.

(** C6 witness: "2020" is read as 2020-01-01, before 2024-06-15. *)
Lemma past_check_independent_of_format_witness :
  re_date "2020" = false /\
  In err_past (errors (validateBooking no_fallback ex_env1 (mkBooking None 1 "2020" "09:00" None None None))).
Proof.
  split; [reflexivity|].
  apply (past_check_independent_of_format no_fallback ex_env1
           (mkBooking None 1 "2020" "09:00" None None None) eq_refl).
  exists (days_from_civil 2020 1 1 * ms_per_day). split; vm_compute; reflexivity.
Defined.



(** C8 counterexample: on 2024-06-25 the stored booking of 2024-06-20 still
    has its id in storage, yet deleting that id fails with "Booking not
    found". *)
Lemma delete_past_booking_counterexample :
  ls_bookings ex_store1 = Some (SArray [JObj (new_booking ex_env1 ex_booking)]) /\
  id (new_booking ex_env1 ex_booking) = Some "booking_1718413200000_k3x9q2m7a" /\
  snd (deleteBooking no_fallback ex_env2 ex_store1 "booking_1718413200000_k3x9q2m7a") =
    Rejected msg_not_found.
Proof. vm_compute. repeat split. Qed.

(** C10 witness: the booking for 2024-06-20, looked at on 2024-06-25. *)
Lemma past_bookings_vanish_witness :
  ~ In (new_booking ex_env1 ex_booking) (snd (getBookings no_fallback ex_env2 ex_store1)) /\
  snd (isSlotAvailable no_fallback ex_env2 ex_store1 1 "2024-06-20" "09:00") = true.
Proof.
  destruct (past_bookings_vanish no_fallback ex_env2 ex_store1 _ (new_booking ex_env1 ex_booking) 19894
              eq_refl ex_store1_bookings (or_introl eq_refl) eq_refl eq_refl) as [H1 H2].
  split; [exact H1|]. apply H2; discriminate.
Defined.

(** X4 witness: the listing for room 1 on 2024-06-20 after saving 09:00
    and then 10:00 has two bookings with distinct times. *)
Lemma room_date_distinct_times_witness :
  reachable no_fallback ex_store2 /\
  map time (snd (getBookingsForRoomAndDate no_fallback ex_env1 ex_store2 1 "2024-06-20")) =
    ["09:00"; "10:00"] /\
  NoDup (map time (snd (getBookingsForRoomAndDate no_fallback ex_env1 ex_store2 1 "2024-06-20"))).
Proof.
  split; [exact ex_store2_reachable|]. split; [vm_compute; reflexivity|].
  exact (proj1 (room_date_distinct_times no_fallback ex_store2 ex_store2_reachable
                  ex_env1 1 "2024-06-20")).
Defined.

(** X5 witness: with 09:00 booked, its option is disabled and a selected
    09:00 is cleared; the placeholder is left alone. *)
Lemma time_slots_follow_availability_witness :
  (1 <> 0) /\ "2024-06-20" <> "" /\
  snd (updateAvailableTimeSlots no_fallback ex_env1 ex_store1 (Some 1) (Some "2024-06-20")
         (Some "09:00") [""; "09:00"; "10:00"]) =
  Some ([(""%string, None); ("09:00"%string, Some true); ("10:00"%string, Some false)], None).
Proof.
  split; [discriminate|]. split; [discriminate|].
  rewrite (time_slots_follow_availability no_fallback ex_env1 ex_store1 1 "2024-06-20"
             (Some "09:00") [""; "09:00"; "10:00"] ltac:(discriminate) ltac:(discriminate)).
  vm_compute. reflexivity.
Defined.

(** X7 witness: five hours behind UTC, a booking for the local date
    2024-06-14 is reported as past. *)
Lemma today_past_iff_west_of_utc_witness :
  calendar_day "2024-06-14" = Some (local_day ex_env3) /\
  In err_past (errors (validateBooking no_fallback ex_env3
                         (mkBooking None 1 "2024-06-14" "09:00" None None None))).
Proof.
  assert (Hday : calendar_day (date (mkBooking None 1 "2024-06-14" "09:00" None None None)) =
                 Some (local_day ex_env3)) by (vm_compute; reflexivity).
  split; [exact Hday|].
  apply (proj2 (proj1 (today_past_iff_west_of_utc no_fallback ex_env3 _ Hday))).
  vm_compute. reflexivity.
Defined.

(** X8 witness: "2024-13-45" is accepted ten days after the sample date. *)
Lemma out_of_range_date_never_past_witness :
  ymd_fields "2024-13-45" = Some (2024, 13, 45) /\
  valid_at no_fallback ex_env2 (mkBooking None 1 "2024-13-45" "09:00" None None None) = true.
Proof.
  assert (Hf : ymd_fields (date (mkBooking None 1 "2024-13-45" "09:00" None None None)) =
               Some (2024, 13, 45)) by (vm_compute; reflexivity).
  split; [exact Hf|].
  rewrite (proj1 (proj2 (out_of_range_date_never_past no_fallback ex_env2 _ 2024 13 45 Hf
                           ltac:(lia)))).
  reflexivity.
Defined.

(** X12 witness: the ids of the two sample instants differ. *)
Lemma generateBookingId_injective_witness :
  0 <= env_now ex_env1 < 10 ^ 40 /\ 0 <= env_now ex_env2 < 10 ^ 40 /\
  generateBookingId ex_env1 <> generateBookingId ex_env2.
Proof.
  assert (H1 : 0 <= env_now ex_env1 < 10 ^ 40) by (vm_compute; split; [intros Hc; discriminate Hc | reflexivity]).
  assert (H2 : 0 <= env_now ex_env2 < 10 ^ 40) by (vm_compute; split; [intros Hc; discriminate Hc | reflexivity]).
  split; [exact H1|]. split; [exact H2|].
  intros H. apply (generateBookingId_injective ex_env1 ex_env2 H1 H2) in H.
  destruct H as [Hn _]. vm_compute in Hn. discriminate Hn.
Defined.

(** X13 witness: after the first save, the listing for room 1 on
    2024-06-20 holds the new booking. *)
Lemma save_then_room_date_witness :
  saveBooking no_fallback ex_env1 empty_storage ex_booking =
    (ex_store1, Resolved (new_booking ex_env1 ex_booking)) /\
  snd (getBookingsForRoomAndDate no_fallback ex_env1 ex_store1 1 "2024-06-20") =
    [new_booking ex_env1 ex_booking].
Proof.
  assert (Hs : saveBooking no_fallback ex_env1 empty_storage ex_booking =
                 (ex_store1, Resolved (new_booking ex_env1 ex_booking)))
    by (vm_compute; reflexivity).
  split; [exact Hs|].
  rewrite (save_then_room_date no_fallback ex_env1 empty_storage _ ex_booking _ Hs 1 "2024-06-20").
  vm_compute. reflexivity.
Defined.

(** X10 witness: submitting room 1, 2024-06-20, 09:00 once it is booked. *)
Lemma submission_never_save_conflict_witness :
  snd (handleBookingSubmission no_fallback ex_env1 ex_store1 [] (Some 1) "2024-06-20" "09:00") =
    Rejected msg_taken.
Proof.
  apply (proj2 (submission_never_save_conflict no_fallback ex_env1 ex_store1 [] (Some 1)
                  "2024-06-20" "09:00") 1 eq_refl); vm_compute; reflexivity.
Defined.
